(** * Permit2TransferValidator: a shallow embedding of the contract

    The contract [contracts/chainlink_permit2.sol] owns no storage.  Each of
    its entry points is a straight line of [require]s, calls to two external
    collaborators (the Permit2 registry and an OFT token/bridge) and [emit]s.
    The embedding keeps that shape: an entry point is a computation in a small
    monad that threads the chain state, aborts on the first failure and
    records, in program order, every external call it makes and every event
    it emits. *)

From Stdlib Require Import ZArith List String Bool Lia.
Import ListNotations.
Local Open Scope string_scope.
Local Open Scope Z_scope.

(** ** Solidity value types

    Unsigned integers are modelled by their value in [Z]; an explicit
    narrowing conversion is written out as a reduction modulo the width. *)

Definition address := Z.
Definition uint32 := Z.
Definition uint48 := Z.
Definition uint64 := Z.
Definition uint160 := Z.
Definition uint256 := Z.
Definition bytes32 := Z.
Definition bytes := list Byte.byte.

(** [uint160(x)] for [x : uint256]: an explicit conversion truncates. *)
Definition to_uint160 (x : uint256) : uint160 := x mod 2 ^ 160.

(** [uint160(a)] for [a : address]: same width, same value. *)
Definition uint160_of_address (a : address) : uint160 := a.

(** [uint256(x)] for [x : uint160]: zero extension keeps the value. *)
Definition uint256_of_uint160 (x : uint160) : uint256 := x.

(** [bytes32(x)] for [x : uint256]: same width, the big-endian word. *)
Definition bytes32_of_uint256 (x : uint256) : bytes32 := x.

(** [address(0)]. *)
Definition address0 : address := 0.

(** The two handles on the registry, one address. *)
Definition PERMIT2 : address := 0x000000000022D473030F116dDEE9F6B43aC78BA3.
Definition PERMIT2_SIGNATURE : address := 0x000000000022D473030F116dDEE9F6B43aC78BA3.

(** ** The interfaces the contract is compiled against *)

Module IOFT.
Record SendParam := {
  dstEid : uint32;
  to : bytes32;
  amountLD : uint256;
  minAmountLD : uint256;
  extraOptions : bytes;
  composeMsg : bytes;
  oftCmd : bytes
}.

Record MessagingFee := {
  nativeFee : uint256;
  lzTokenFee : uint256
}.

Record MessagingReceipt := {
  guid : bytes32;
  nonce : uint64;
  fee : MessagingFee
}.

Record OFTReceipt := {
  amountSentLD : uint256;
  amountReceivedLD : uint256
}.
End IOFT.

Module IAllowanceTransfer.
Record PermitDetails := {
  token : address;
  amount : uint160;
  expiration : uint48;
  nonce : uint48
}.

Record PermitSingle := {
  details : PermitDetails;
  spender : address;
  sigDeadline : uint256
}.
End IAllowanceTransfer.

Module ISignatureTransfer.
Record TokenPermissions := {
  token : address;
  amount : uint256
}.

Record PermitTransferFrom := {
  permitted : TokenPermissions;
  nonce : uint256;
  deadline : uint256
}.

Record SignatureTransferDetails := {
  to : address;
  requestedAmount : uint256
}.
End ISignatureTransfer.

(** ** What a call frame of the contract does to the outside

    [Msg.t] is the calldata of an external call, one constructor per
    interface function the contract uses. *)

Module Msg.
Inductive t :=
| permit (owner : address) (permitSingle : IAllowanceTransfer.PermitSingle)
         (signature : bytes)
| transferFrom (from to : address) (amount : uint160) (token : address)
| permitTransferFrom (permit : ISignatureTransfer.PermitTransferFrom)
                     (transferDetails : ISignatureTransfer.SignatureTransferDetails)
                     (owner : address) (signature : bytes)
| approve (spender : address) (amount : uint256)
| send (sendParam : IOFT.SendParam) (fee : IOFT.MessagingFee)
       (refundAddress : address)
| quoteSend (sendParam : IOFT.SendParam) (payInLzToken : bool)
| balanceOf (account : address).
End Msg.

Record ExtCall := mkCall {
  target : address;
  callvalue : uint256;
  calldata : Msg.t
}.

Inductive Event :=
| PermitValidated (owner token spender : address) (amount : uint160)
| TokensTransferred (from to token : address) (amount : uint160)
| TokensBridged (from token : address) (dstEid : uint32) (dstAddress : address)
                (amount : uint256) (messageId : bytes32).

Inductive Action :=
| ACall (c : ExtCall)
| AEmit (e : Event).

Inductive Failure :=
| RequireFailed (message : string)
| NonPayable
| CallReverted (c : ExtCall).

(** The result of running a frame from a chain state: either it returns a
    value in a new state, or it reverts.  Both carry the actions the frame
    performed, in order; for a revert the last recorded call is the one that
    failed. *)
Inductive Outcome (W A : Type) :=
| Success (a : A) (w : W) (tr : list Action)
| Reverted (why : Failure) (tr : list Action).
Arguments Success {W A} a w tr.
Arguments Reverted {W A} why tr.

Definition trace_of {W A} (o : Outcome W A) : list Action :=
  match o with
  | Success _ _ tr => tr
  | Reverted _ tr => tr
  end.

Fixpoint calls_of (tr : list Action) : list ExtCall :=
  match tr with
  | [] => []
  | ACall c :: tr' => c :: calls_of tr'
  | AEmit _ :: tr' => calls_of tr'
  end.

Fixpoint events_of (tr : list Action) : list Event :=
  match tr with
  | [] => []
  | ACall _ :: tr' => events_of tr'
  | AEmit e :: tr' => e :: events_of tr'
  end.

(** Calls to the registry, of any of its three functions. *)
Definition is_registry_call (c : ExtCall) : bool :=
  match calldata c with
  | Msg.permit _ _ _ => true
  | Msg.transferFrom _ _ _ _ => true
  | Msg.permitTransferFrom _ _ _ _ => true
  | _ => false
  end.

(** Calls through which tokens can leave or enter an account: the registry's
    two transfer functions and the bridge send. *)
Definition is_transfer (c : ExtCall) : bool :=
  match calldata c with
  | Msg.transferFrom _ _ _ _ => true
  | Msg.permitTransferFrom _ _ _ _ => true
  | Msg.send _ _ _ => true
  | _ => false
  end.

(** The registry calls of a frame are exactly one one-shot signature transfer
    of the permit's amount to [self]. *)
Definition pulls_once {W A} (self : address)
    (permit : ISignatureTransfer.PermitTransferFrom) (owner : address)
    (signature : bytes) (o : Outcome W A) : Prop :=
  filter is_registry_call (calls_of (trace_of o))
  = [mkCall PERMIT2_SIGNATURE 0
       (Msg.permitTransferFrom permit
          {| ISignatureTransfer.to := self;
             ISignatureTransfer.requestedAmount :=
               ISignatureTransfer.amount (ISignatureTransfer.permitted permit) |}
          owner signature)].

(** A frame that reverted before making any external call. *)
Definition rejected_before_any_call {W A} (o : Outcome W A) : Prop :=
  exists why, o = Reverted why [].

(** ** The chain outside the contract

    The registry and the token are not part of the repository: they are the
    parameters of the development.  Each handler receives the caller (the
    contract), for a token function the address called, the arguments (for
    [send] the attached value first) and the state; [None] is a revert of the
    callee.
    The functions the interfaces declare [view] cannot change the state. *)
Record Chain := {
  World : Type;
  PERMIT2_permit :
    address -> address -> IAllowanceTransfer.PermitSingle -> bytes ->
    World -> option World;
  PERMIT2_transferFrom :
    address -> address -> address -> uint160 -> address ->
    World -> option World;
  PERMIT2_permitTransferFrom :
    address -> ISignatureTransfer.PermitTransferFrom ->
    ISignatureTransfer.SignatureTransferDetails -> address -> bytes ->
    World -> option World;
  IOFT_approve :
    address -> address -> address -> uint256 ->
    World -> option (bool * World);
  IOFT_send :
    address -> address -> uint256 -> IOFT.SendParam -> IOFT.MessagingFee ->
    address -> World ->
    option ((IOFT.MessagingReceipt * IOFT.OFTReceipt) * World);
  IOFT_quoteSend :
    address -> IOFT.SendParam -> bool -> World -> option IOFT.MessagingFee;
  IOFT_balanceOf :
    address -> address -> World -> option uint256
}.

(** The execution context of a call: [address(this)], [msg.sender],
    [msg.value]. *)
Record Ctx := {
  this : address;
  sender : address;
  value : uint256
}.

Section Permit2TransferValidator.

Variable E : Chain.

Definition M (A : Type) : Type := World E -> Outcome (World E) A.

Definition ret {A} (a : A) : M A := fun w => Success a w [].

Definition bind {A B} (m : M A) (k : A -> M B) : M B :=
  fun w =>
    match m w with
    | Success a w1 tr1 =>
        match k a w1 with
        | Success b w2 tr2 => Success b w2 (tr1 ++ tr2)
        | Reverted why tr2 => Reverted why (tr1 ++ tr2)
        end
    | Reverted why tr1 => Reverted why tr1
    end.

Notation "x <- m ;; k" := (bind m (fun x => k))
  (at level 61, m at next level, right associativity).
Notation "m ;; k" := (bind m (fun _ => k))
  (at level 61, right associativity).

Definition require (cond : bool) (message : string) : M unit :=
  fun w => if cond then Success tt w [] else Reverted (RequireFailed message) [].

Definition emit (e : Event) : M unit :=
  fun w => Success tt w [AEmit e].

(** A state-changing external call and a read-only one. *)
Definition call {R} (c : ExtCall) (h : World E -> option (R * World E)) : M R :=
  fun w =>
    match h w with
    | Some (r, w') => Success r w' [ACall c]
    | None => Reverted (CallReverted c) [ACall c]
    end.

Definition staticcall {R} (c : ExtCall) (h : World E -> option R) : M R :=
  call c (fun w => option_map (fun r => (r, w)) (h w)).

(** The check the compiler puts in front of a function that is not
    [payable]. *)
Definition nonpayable (ctx : Ctx) : M unit :=
  fun w => if value ctx =? 0 then Success tt w [] else Reverted NonPayable [].

(** *** Calls on the registry *)

Definition unit_result (o : option (World E)) : option (unit * World E) :=
  option_map (fun w => (tt, w)) o.

Definition permit2_permit (ctx : Ctx) (owner : address)
    (permitSingle : IAllowanceTransfer.PermitSingle) (signature : bytes) : M unit :=
  call (mkCall PERMIT2 0 (Msg.permit owner permitSingle signature))
       (fun w => unit_result (PERMIT2_permit E (this ctx) owner permitSingle signature w)).

Definition permit2_transferFrom (ctx : Ctx) (from to : address)
    (amount : uint160) (token : address) : M unit :=
  call (mkCall PERMIT2 0 (Msg.transferFrom from to amount token))
       (fun w => unit_result (PERMIT2_transferFrom E (this ctx) from to amount token w)).

Definition permit2_permitTransferFrom (ctx : Ctx)
    (permit : ISignatureTransfer.PermitTransferFrom)
    (transferDetails : ISignatureTransfer.SignatureTransferDetails)
    (owner : address) (signature : bytes) : M unit :=
  call (mkCall PERMIT2_SIGNATURE 0
          (Msg.permitTransferFrom permit transferDetails owner signature))
       (fun w => unit_result
          (PERMIT2_permitTransferFrom E (this ctx) permit transferDetails owner signature w)).

(** *** Calls on [IOFT(oft)] *)

Definition oft_approve (ctx : Ctx) (oft spender : address) (amount : uint256) : M bool :=
  call (mkCall oft 0 (Msg.approve spender amount))
       (IOFT_approve E (this ctx) oft spender amount).

Definition oft_send (ctx : Ctx) (oft : address) (val : uint256)
    (sendParam : IOFT.SendParam) (fee : IOFT.MessagingFee) (refundAddress : address)
    : M (IOFT.MessagingReceipt * IOFT.OFTReceipt) :=
  call (mkCall oft val (Msg.send sendParam fee refundAddress))
       (IOFT_send E (this ctx) oft val sendParam fee refundAddress).

Definition oft_quoteSend (oft : address) (sendParam : IOFT.SendParam)
    (payInLzToken : bool) : M IOFT.MessagingFee :=
  staticcall (mkCall oft 0 (Msg.quoteSend sendParam payInLzToken))
             (IOFT_quoteSend E oft sendParam payInLzToken).

Definition oft_balanceOf (oft account : address) : M uint256 :=
  staticcall (mkCall oft 0 (Msg.balanceOf account))
             (IOFT_balanceOf E oft account).

(** ** The contract *)

(** [validatePermit], lines 151-167: no local check. *)
Definition validatePermit (ctx : Ctx)
    (permitSingle : IAllowanceTransfer.PermitSingle) (signature : bytes)
    (owner : address) : M unit :=
  nonpayable ctx ;;
  permit2_permit ctx owner permitSingle signature ;;
  emit (PermitValidated
          owner
          (IAllowanceTransfer.token (IAllowanceTransfer.details permitSingle))
          (IAllowanceTransfer.spender permitSingle)
          (IAllowanceTransfer.amount (IAllowanceTransfer.details permitSingle))).

(** [validatePermitAndTransfer], lines 177-220. *)
Definition validatePermitAndTransfer (ctx : Ctx)
    (permitSingle : IAllowanceTransfer.PermitSingle) (signature : bytes)
    (owner recipient : address) (amount : uint160) : M unit :=
  nonpayable ctx ;;
  require (negb (recipient =? address0)) "Invalid recipient" ;;
  require (negb (recipient =? this ctx)) "Cannot transfer to self" ;;
  require (0 <? amount) "Zero amount" ;;
  require (amount <=? IAllowanceTransfer.amount (IAllowanceTransfer.details permitSingle))
          "Amount exceeds permitted" ;;
  require (negb (IAllowanceTransfer.token (IAllowanceTransfer.details permitSingle)
                 =? address0))
          "Invalid token" ;;
  require (IAllowanceTransfer.spender permitSingle =? this ctx) "Invalid spender" ;;
  permit2_permit ctx owner permitSingle signature ;;
  permit2_transferFrom ctx owner recipient amount
    (IAllowanceTransfer.token (IAllowanceTransfer.details permitSingle)) ;;
  emit (TokensTransferred
          owner
          recipient
          (IAllowanceTransfer.token (IAllowanceTransfer.details permitSingle))
          amount).

(** [receiveTokensWithPermit], lines 230-267. *)
Definition receiveTokensWithPermit (ctx : Ctx)
    (permitSingle : IAllowanceTransfer.PermitSingle) (signature : bytes)
    (owner : address) (amount : uint160) : M unit :=
  nonpayable ctx ;;
  require (0 <? amount) "Zero amount" ;;
  require (amount <=? IAllowanceTransfer.amount (IAllowanceTransfer.details permitSingle))
          "Amount exceeds permitted" ;;
  require (negb (IAllowanceTransfer.token (IAllowanceTransfer.details permitSingle)
                 =? address0))
          "Invalid token" ;;
  require (IAllowanceTransfer.spender permitSingle =? this ctx) "Invalid spender" ;;
  permit2_permit ctx owner permitSingle signature ;;
  permit2_transferFrom ctx owner (this ctx) amount
    (IAllowanceTransfer.token (IAllowanceTransfer.details permitSingle)) ;;
  emit (TokensTransferred
          owner
          (this ctx)
          (IAllowanceTransfer.token (IAllowanceTransfer.details permitSingle))
          amount).

(** [_sendViaLayerZero], lines 417-452; the OFT receipt is dropped. *)
Definition _sendViaLayerZero (ctx : Ctx) (oft : address) (dstEid : uint32)
    (dstAddress : address) (amount minAmountLD : uint256) (extraOptions : bytes)
    (refundAddress : address) (nativeFee : uint256) : M bytes32 :=
  let sendParam := {|
    IOFT.dstEid := dstEid;
    IOFT.to := bytes32_of_uint256 (uint256_of_uint160 (uint160_of_address dstAddress));
    IOFT.amountLD := amount;
    IOFT.minAmountLD := minAmountLD;
    IOFT.extraOptions := extraOptions;
    IOFT.composeMsg := [];
    IOFT.oftCmd := []
  |} in
  let fee := {|
    IOFT.nativeFee := nativeFee;
    IOFT.lzTokenFee := 0
  |} in
  receipts <- oft_send ctx oft nativeFee sendParam fee refundAddress ;;
  ret (IOFT.guid (fst receipts)).

(** [receiveAndBridge], lines 281-350, [payable]; the value [approve]
    returns is not looked at. *)
Definition receiveAndBridge (ctx : Ctx)
    (permitSingle : IAllowanceTransfer.PermitSingle) (signature : bytes)
    (owner : address) (amount : uint160) (dstEid : uint32) (dstAddress : address)
    (minAmountLD : uint256) (extraOptions : bytes) : M unit :=
  require (0 <? amount) "Zero amount" ;;
  require (negb (dstAddress =? address0)) "Invalid destination address" ;;
  require (amount <=? IAllowanceTransfer.amount (IAllowanceTransfer.details permitSingle))
          "Amount exceeds permitted" ;;
  require (negb (IAllowanceTransfer.token (IAllowanceTransfer.details permitSingle)
                 =? address0))
          "Invalid token" ;;
  require (IAllowanceTransfer.spender permitSingle =? this ctx) "Invalid spender" ;;
  permit2_permit ctx owner permitSingle signature ;;
  permit2_transferFrom ctx owner (this ctx) amount
    (IAllowanceTransfer.token (IAllowanceTransfer.details permitSingle)) ;;
  emit (TokensTransferred
          owner
          (this ctx)
          (IAllowanceTransfer.token (IAllowanceTransfer.details permitSingle))
          amount) ;;
  let oft := IAllowanceTransfer.token (IAllowanceTransfer.details permitSingle) in
  oft_approve ctx oft
    (IAllowanceTransfer.token (IAllowanceTransfer.details permitSingle))
    (uint256_of_uint160 amount) ;;
  guid <- _sendViaLayerZero ctx oft dstEid dstAddress (uint256_of_uint160 amount)
            minAmountLD extraOptions owner (value ctx) ;;
  emit (TokensBridged
          owner
          (IAllowanceTransfer.token (IAllowanceTransfer.details permitSingle))
          dstEid
          dstAddress
          (uint256_of_uint160 amount)
          guid).

(** [receiveAndBridgeGasless], lines 363-412, [payable]. *)
Definition receiveAndBridgeGasless (ctx : Ctx)
    (permit : ISignatureTransfer.PermitTransferFrom) (owner : address)
    (signature : bytes) (dstEid : uint32) (dstAddress : address)
    (minAmountLD : uint256) (extraOptions : bytes) : M unit :=
  require (0 <? ISignatureTransfer.amount (ISignatureTransfer.permitted permit))
          "Zero amount" ;;
  require (negb (dstAddress =? address0)) "Invalid destination address" ;;
  require (negb (ISignatureTransfer.token (ISignatureTransfer.permitted permit)
                 =? address0))
          "Invalid token" ;;
  let amount := ISignatureTransfer.amount (ISignatureTransfer.permitted permit) in
  permit2_permitTransferFrom ctx
    permit
    {| ISignatureTransfer.to := this ctx;
       ISignatureTransfer.requestedAmount := amount |}
    owner
    signature ;;
  emit (TokensTransferred owner (this ctx)
          (ISignatureTransfer.token (ISignatureTransfer.permitted permit))
          (to_uint160 amount)) ;;
  let oft := ISignatureTransfer.token (ISignatureTransfer.permitted permit) in
  oft_approve ctx oft oft amount ;;
  messageId <- _sendViaLayerZero ctx oft dstEid dstAddress amount minAmountLD
                 extraOptions owner (value ctx) ;;
  emit (TokensBridged owner
          (ISignatureTransfer.token (ISignatureTransfer.permitted permit))
          dstEid dstAddress amount messageId).

(** [quoteBridge], lines 464-487, a [view] function. *)
Definition quoteBridge (ctx : Ctx) (token : address) (dstEid : uint32)
    (dstAddress : address) (amount minAmountLD : uint256) (extraOptions : bytes)
    : M uint256 :=
  nonpayable ctx ;;
  let oft := token in
  let toAddress :=
    bytes32_of_uint256 (uint256_of_uint160 (uint160_of_address dstAddress)) in
  let sendParam := {|
    IOFT.dstEid := dstEid;
    IOFT.to := toAddress;
    IOFT.amountLD := amount;
    IOFT.minAmountLD := minAmountLD;
    IOFT.extraOptions := extraOptions;
    IOFT.composeMsg := [];
    IOFT.oftCmd := []
  |} in
  fee <- oft_quoteSend oft sendParam false ;;
  ret (IOFT.nativeFee fee).

(** [withdrawTokens], lines 495-505. *)
Definition withdrawTokens (ctx : Ctx) (token to : address) (amount : uint256)
    : M unit :=
  nonpayable ctx ;;
  require ((sender ctx =? this ctx) || (to =? sender ctx)) "Not authorized" ;;
  let oft := token in
  balance <- oft_balanceOf oft (this ctx) ;;
  require (amount <=? balance) "Insufficient balance" ;;
  oft_approve ctx oft to amount ;;
  ret tt.

(** ** A top-level transaction

    What the ledger keeps of a call: the new state and the logs when the
    frame returns, the state it started from and no log when it reverts.
    The contract never catches a failure of a callee (there is no [try] in
    it), so a frame reverts as soon as one of its calls does. *)
Record Receipt := {
  post : World E;
  logs : list Event;
  succeeded : bool
}.

Definition transact {A} (m : M A) (w : World E) : Receipt :=
  match m w with
  | Success _ w' tr => {| post := w'; logs := events_of tr; succeeded := true |}
  | Reverted _ _ => {| post := w; logs := []; succeeded := false |}
  end.

(** The entry-point surface of the contract. *)
Inductive Entry :=
| Call_validatePermit
    (permitSingle : IAllowanceTransfer.PermitSingle) (signature : bytes)
    (owner : address)
| Call_validatePermitAndTransfer
    (permitSingle : IAllowanceTransfer.PermitSingle) (signature : bytes)
    (owner recipient : address) (amount : uint160)
| Call_receiveTokensWithPermit
    (permitSingle : IAllowanceTransfer.PermitSingle) (signature : bytes)
    (owner : address) (amount : uint160)
| Call_receiveAndBridge
    (permitSingle : IAllowanceTransfer.PermitSingle) (signature : bytes)
    (owner : address) (amount : uint160) (dstEid : uint32) (dstAddress : address)
    (minAmountLD : uint256) (extraOptions : bytes)
| Call_receiveAndBridgeGasless
    (permit : ISignatureTransfer.PermitTransferFrom) (owner : address)
    (signature : bytes) (dstEid : uint32) (dstAddress : address)
    (minAmountLD : uint256) (extraOptions : bytes)
| Call_quoteBridge
    (token : address) (dstEid : uint32) (dstAddress : address)
    (amount minAmountLD : uint256) (extraOptions : bytes)
| Call_withdrawTokens (token to : address) (amount : uint256).

Definition discard {A} (m : M A) : M unit := bind m (fun _ => ret tt).

Definition dispatch (ctx : Ctx) (e : Entry) : M unit :=
  match e with
  | Call_validatePermit p s o => validatePermit ctx p s o
  | Call_validatePermitAndTransfer p s o r a => validatePermitAndTransfer ctx p s o r a
  | Call_receiveTokensWithPermit p s o a => receiveTokensWithPermit ctx p s o a
  | Call_receiveAndBridge p s o a d da m x => receiveAndBridge ctx p s o a d da m x
  | Call_receiveAndBridgeGasless p o s d da m x =>
      receiveAndBridgeGasless ctx p o s d da m x
  | Call_quoteBridge t d da a m x => discard (quoteBridge ctx t d da a m x)
  | Call_withdrawTokens t to a => withdrawTokens ctx t to a
  end.

End Permit2TransferValidator.

Arguments M E A : clear implicits.

(** ** Replaying a trace

    [perform] is the effect on the chain of one recorded call, [replay] that
    of a whole trace; [None] when one of the calls reverts. *)
Section Replay.

Variable E : Chain.
Variable self : address.

Definition perform (c : ExtCall) (w : World E) : option (World E) :=
  match calldata c with
  | Msg.permit owner permitSingle signature =>
      PERMIT2_permit E self owner permitSingle signature w
  | Msg.transferFrom from to amount token =>
      PERMIT2_transferFrom E self from to amount token w
  | Msg.permitTransferFrom permit transferDetails owner signature =>
      PERMIT2_permitTransferFrom E self permit transferDetails owner signature w
  | Msg.approve spender amount =>
      option_map snd (IOFT_approve E self (target c) spender amount w)
  | Msg.send sendParam fee refundAddress =>
      option_map snd
        (IOFT_send E self (target c) (callvalue c) sendParam fee refundAddress w)
  | Msg.quoteSend sendParam payInLzToken =>
      option_map (fun _ => w) (IOFT_quoteSend E (target c) sendParam payInLzToken w)
  | Msg.balanceOf account =>
      option_map (fun _ => w) (IOFT_balanceOf E (target c) account w)
  end.

Fixpoint replay (w : World E) (tr : list Action) : option (World E) :=
  match tr with
  | [] => Some w
  | ACall c :: tr' =>
      match perform c w with
      | Some w' => replay w' tr'
      | None => None
      end
  | AEmit _ :: tr' => replay w tr'
  end.

End Replay.

(** ** A small chain to run the contract on

    One token, a registry that accepts one fixed signature, and a bridge
    that charges a flat fee.  It stands in for the external contracts when a
    statement is evaluated on concrete inputs. *)
Module Devnet.

Record State := {
  balances : list (address * Z);
  allowance : Z;
  nonce_used : bool
}.

Fixpoint balance (l : list (address * Z)) (a : address) : Z :=
  match l with
  | [] => 0
  | (h, v) :: l' => if h =? a then v else balance l' a
  end.

Definition move (l : list (address * Z)) (from to : address) (amount : Z)
    : list (address * Z) :=
  let l1 := (from, balance l from - amount) :: l in
  (to, balance l1 to + amount) :: l1.

Definition good_signature : bytes := [Byte.x01].
Definition flat_fee : Z := 5.

Definition is_good (signature : bytes) : bool :=
  match signature with
  | [Byte.x01] => true
  | _ => false
  end.

Definition permit (caller owner : address) (p : IAllowanceTransfer.PermitSingle)
    (signature : bytes) (s : State) : option State :=
  if is_good signature then
    Some {| balances := balances s;
            allowance := IAllowanceTransfer.amount (IAllowanceTransfer.details p);
            nonce_used := nonce_used s |}
  else None.

Definition transferFrom (caller from to : address) (amount : uint160)
    (token : address) (s : State) : option State :=
  if (amount <=? allowance s) && (amount <=? balance (balances s) from) then
    Some {| balances := move (balances s) from to amount;
            allowance := allowance s - amount;
            nonce_used := nonce_used s |}
  else None.

Definition permitTransferFrom (caller : address)
    (p : ISignatureTransfer.PermitTransferFrom)
    (d : ISignatureTransfer.SignatureTransferDetails) (owner : address)
    (signature : bytes) (s : State) : option State :=
  if is_good signature && negb (nonce_used s)
     && (ISignatureTransfer.requestedAmount d
         <=? ISignatureTransfer.amount (ISignatureTransfer.permitted p))
     && (ISignatureTransfer.requestedAmount d <=? balance (balances s) owner)
  then
    Some {| balances := move (balances s) owner (ISignatureTransfer.to d)
                          (ISignatureTransfer.requestedAmount d);
            allowance := allowance s;
            nonce_used := true |}
  else None.

Definition approve (caller oft spender : address) (amount : uint256) (s : State)
    : option (bool * State) :=
  Some (true, s).

Definition send (caller oft : address) (val : uint256) (sp : IOFT.SendParam)
    (fee : IOFT.MessagingFee) (refund : address) (s : State)
    : option ((IOFT.MessagingReceipt * IOFT.OFTReceipt) * State) :=
  if (flat_fee <=? val) && (IOFT.amountLD sp <=? balance (balances s) caller) then
    Some (({| IOFT.guid := 77; IOFT.nonce := 1; IOFT.fee := fee |},
           {| IOFT.amountSentLD := IOFT.amountLD sp;
              IOFT.amountReceivedLD := IOFT.amountLD sp |}),
          {| balances := move (balances s) caller 0 (IOFT.amountLD sp);
             allowance := allowance s;
             nonce_used := nonce_used s |})
  else None.

Definition quoteSend (oft : address) (sp : IOFT.SendParam) (payInLzToken : bool)
    (s : State) : option IOFT.MessagingFee :=
  Some {| IOFT.nativeFee := flat_fee; IOFT.lzTokenFee := 0 |}.

Definition balanceOf (oft account : address) (s : State) : option uint256 :=
  Some (balance (balances s) account).

Definition chain : Chain := {|
  World := State;
  PERMIT2_permit := permit;
  PERMIT2_transferFrom := transferFrom;
  PERMIT2_permitTransferFrom := permitTransferFrom;
  IOFT_approve := approve;
  IOFT_send := send;
  IOFT_quoteSend := quoteSend;
  IOFT_balanceOf := balanceOf
|}.

(** The cast of the scenarios. *)
Definition validator : address := 1000.
Definition alice : address := 2000.
Definition bob : address := 3000.
Definition usdc : address := 4000.
Definition relayer : address := 5000.

Definition genesis : State := {|
  balances := [(alice, 5000000)];
  allowance := 0;
  nonce_used := false
|}.

(** The same chain with Alice holding more than a 160-bit amount. *)
Definition whale_genesis : State := {|
  balances := [(alice, 2 ^ 200)];
  allowance := 0;
  nonce_used := false
|}.

(** A relayer calling the validator, without and with attached value. *)
Definition plain : Ctx := {| this := validator; sender := relayer; value := 0 |}.
Definition paying (v : Z) : Ctx := {| this := validator; sender := relayer; value := v |}.

(** Alice's allowance permit for one million units, to [spender]. *)
Definition permit_to (spender : address) : IAllowanceTransfer.PermitSingle := {|
  IAllowanceTransfer.details := {|
    IAllowanceTransfer.token := usdc;
    IAllowanceTransfer.amount := 1000000;
    IAllowanceTransfer.expiration := 1900000000;
    IAllowanceTransfer.nonce := 0
  |};
  IAllowanceTransfer.spender := spender;
  IAllowanceTransfer.sigDeadline := 1900000000
|}.

(** Alice's one-shot permit for [amount] units. *)
Definition oneshot (amount : Z) : ISignatureTransfer.PermitTransferFrom := {|
  ISignatureTransfer.permitted := {|
    ISignatureTransfer.token := usdc;
    ISignatureTransfer.amount := amount
  |};
  ISignatureTransfer.nonce := 0;
  ISignatureTransfer.deadline := 1900000000
|}.

End Devnet.

(** ** Views on an entry point *)

(** The token contract an entry point talks to. *)
Definition entry_token (e : Entry) : address :=
  match e with
  | Call_validatePermit p _ _ =>
      IAllowanceTransfer.token (IAllowanceTransfer.details p)
  | Call_validatePermitAndTransfer p _ _ _ _ =>
      IAllowanceTransfer.token (IAllowanceTransfer.details p)
  | Call_receiveTokensWithPermit p _ _ _ =>
      IAllowanceTransfer.token (IAllowanceTransfer.details p)
  | Call_receiveAndBridge p _ _ _ _ _ _ _ =>
      IAllowanceTransfer.token (IAllowanceTransfer.details p)
  | Call_receiveAndBridgeGasless p _ _ _ _ _ _ =>
      ISignatureTransfer.token (ISignatureTransfer.permitted p)
  | Call_quoteBridge t _ _ _ _ _ => t
  | Call_withdrawTokens t _ _ => t
  end.

Definition is_withdraw (e : Entry) : bool :=
  match e with
  | Call_withdrawTokens _ _ _ => true
  | _ => false
  end.

Definition is_send (c : ExtCall) : bool :=
  match calldata c with
  | Msg.send _ _ _ => true
  | _ => false
  end.

(** The number of events a successful call of an entry point leaves. *)
Definition events_per_call (e : Entry) : nat :=
  match e with
  | Call_validatePermit _ _ _ => 1
  | Call_validatePermitAndTransfer _ _ _ _ _ => 1
  | Call_receiveTokensWithPermit _ _ _ _ => 1
  | Call_receiveAndBridge _ _ _ _ _ _ _ _ => 2
  | Call_receiveAndBridgeGasless _ _ _ _ _ _ _ => 2
  | Call_quoteBridge _ _ _ _ _ _ => 0
  | Call_withdrawTokens _ _ _ => 0
  end%nat.

(** The checks an entry point makes itself, gathered in source order: the
    guard of a function that is not [payable] and its [require]s.  The balance
    check of [withdrawTokens] is made on the balance the token reports, a
    read that leaves the state as it is; when that read reverts there is no
    check left to fail. *)
Definition checks_pass (E : Chain) (ctx : Ctx) (e : Entry) (w : World E) : bool :=
  match e with
  | Call_validatePermit _ _ _ =>
      value ctx =? 0
  | Call_validatePermitAndTransfer p _ _ recipient amount =>
      (value ctx =? 0)
      && negb (recipient =? address0)
      && negb (recipient =? this ctx)
      && (0 <? amount)
      && (amount <=? IAllowanceTransfer.amount (IAllowanceTransfer.details p))
      && negb (IAllowanceTransfer.token (IAllowanceTransfer.details p) =? address0)
      && (IAllowanceTransfer.spender p =? this ctx)
  | Call_receiveTokensWithPermit p _ _ amount =>
      (value ctx =? 0)
      && (0 <? amount)
      && (amount <=? IAllowanceTransfer.amount (IAllowanceTransfer.details p))
      && negb (IAllowanceTransfer.token (IAllowanceTransfer.details p) =? address0)
      && (IAllowanceTransfer.spender p =? this ctx)
  | Call_receiveAndBridge p _ _ amount _ dstAddress _ _ =>
      (0 <? amount)
      && negb (dstAddress =? address0)
      && (amount <=? IAllowanceTransfer.amount (IAllowanceTransfer.details p))
      && negb (IAllowanceTransfer.token (IAllowanceTransfer.details p) =? address0)
      && (IAllowanceTransfer.spender p =? this ctx)
  | Call_receiveAndBridgeGasless p _ _ _ dstAddress _ _ =>
      (0 <? ISignatureTransfer.amount (ISignatureTransfer.permitted p))
      && negb (dstAddress =? address0)
      && negb (ISignatureTransfer.token (ISignatureTransfer.permitted p) =? address0)
  | Call_quoteBridge _ _ _ _ _ _ =>
      value ctx =? 0
  | Call_withdrawTokens token to amount =>
      (value ctx =? 0)
      && ((sender ctx =? this ctx) || (to =? sender ctx))
      && match IOFT_balanceOf E token (this ctx) w with
         | Some balance => amount <=? balance
         | None => true
         end
  end.

(** The same context with no value attached. *)
Definition without_value (ctx : Ctx) : Ctx :=
  {| this := this ctx; sender := sender ctx; value := 0 |}.

(** ** The relayer script's search for a free nonce

    [test/test-bridge-base-to-sepolia.ts], lines 104-121: the script reads
    word 0 of the owner's nonce bitmap and takes the position of its first
    clear bit as the nonce of the permit to sign. *)
Module BridgeScript.

(** The [for] loop from index [i], with [n] iterations left; [nonce] is the
    value the variable holds if the loop ends without a [break]. *)
Fixpoint scan (n : nat) (i : Z) (nonceBitmap word nonce : Z) : Z :=
  match n with
  | O => nonce
  | S n' =>
      let bit := Z.shiftl 1 i in
      if Z.land nonceBitmap bit =? 0 then word * 256 + i
      else scan n' (i + 1) nonceBitmap word nonce
  end.

Definition first_unused_nonce (nonceBitmap : Z) : Z :=
  let word := 0 in
  let nonce := 0 in
  scan 256 0 nonceBitmap word nonce.

End BridgeScript.

(** The small chain with a token whose [approve] answers [false] without
    reverting. *)
Definition refusing_chain : Chain := {|
  World := Devnet.State;
  PERMIT2_permit := Devnet.permit;
  PERMIT2_transferFrom := Devnet.transferFrom;
  PERMIT2_permitTransferFrom := Devnet.permitTransferFrom;
  IOFT_approve := fun _ _ _ _ s => Some (false, s);
  IOFT_send := Devnet.send;
  IOFT_quoteSend := Devnet.quoteSend;
  IOFT_balanceOf := Devnet.balanceOf
|}.

(** * Properties *)

(** ** Proof support *)

Ltac unfold_contract :=
  unfold dispatch, discard,
    validatePermit, validatePermitAndTransfer, receiveTokensWithPermit,
    receiveAndBridge, receiveAndBridgeGasless, quoteBridge, withdrawTokens,
    _sendViaLayerZero,
    permit2_permit, permit2_transferFrom, permit2_permitTransferFrom,
    oft_approve, oft_send, oft_quoteSend, oft_balanceOf,
    staticcall, call, nonpayable, require, emit, bind, ret, unit_result in *.

(** Split on the first undecided test or handler result of the goal. *)
Ltac split_step :=
  match goal with
  | |- context [if ?b then _ else _] => destruct b eqn:?
  | |- context [match option_map _ ?o with _ => _ end] => destruct o eqn:?
  | |- context [match ?o with Some _ => _ | None => _ end] =>
      destruct o as [[? ?]|] eqn:?
  end; simpl.

Ltac run_contract := unfold_contract; simpl; repeat split_step.

(** Turn the boolean tests collected on a path into propositions. *)
Ltac to_prop :=
  repeat match goal with
  | H : negb _ = true |- _ => apply negb_true_iff in H
  | H : negb _ = false |- _ => apply negb_false_iff in H
  | H : (_ || _) = true |- _ => apply orb_true_iff in H; destruct H
  | H : (_ || _) = false |- _ => apply orb_false_iff in H; destruct H
  | H : (_ =? _) = true |- _ => apply Z.eqb_eq in H
  | H : (_ =? _) = false |- _ => apply Z.eqb_neq in H
  | H : (_ <? _) = true |- _ => apply Z.ltb_lt in H
  | H : (_ <? _) = false |- _ => apply Z.ltb_ge in H
  | H : (_ <=? _) = true |- _ => apply Z.leb_le in H
  | H : (_ <=? _) = false |- _ => apply Z.leb_gt in H
  end.

(** ** Local rejection *)

(** Evaluation: a validate-and-transfer of two million units against a bound
    of one million stops at the bound check. *)
Example scenario_over_bound :
  validatePermitAndTransfer Devnet.chain Devnet.plain
    (Devnet.permit_to Devnet.validator) Devnet.good_signature
    Devnet.alice Devnet.bob 2000000 Devnet.genesis
  = Reverted (RequireFailed "Amount exceeds permitted") [].
Proof. reflexivity. Qed.

(** C2. A call to [validatePermitAndTransfer] in which a local precondition
    fails (recipient null or the contract itself, amount zero, amount above the
    permit's bound, token null, spender other than the contract) reverts
    having made no external call; in particular an amount above the bound
    leads to no registry call. *)
Theorem validatePermitAndTransfer_rejects_locally :
  forall (E : Chain) (ctx : Ctx) (permitSingle : IAllowanceTransfer.PermitSingle)
         (signature : bytes) (owner recipient : address) (amount : uint160)
         (w : World E),
    recipient = address0 \/
    recipient = this ctx \/
    amount = 0 \/
    IAllowanceTransfer.amount (IAllowanceTransfer.details permitSingle) < amount \/
    IAllowanceTransfer.token (IAllowanceTransfer.details permitSingle) = address0 \/
    IAllowanceTransfer.spender permitSingle <> this ctx ->
    let o := validatePermitAndTransfer E ctx permitSingle signature owner recipient
               amount w in
    rejected_before_any_call o /\
    calls_of (trace_of o) = [] /\
    (IAllowanceTransfer.amount (IAllowanceTransfer.details permitSingle) < amount ->
     filter is_registry_call (calls_of (trace_of o)) = []).
Proof.
  intros E ctx p sig owner recipient amount w H o.
  assert (R : rejected_before_any_call o).
  { subst o. unfold rejected_before_any_call.
    run_contract; eauto; exfalso; to_prop; unfold address0 in *;
      destruct H as [H|[H|[H|[H|[H|H]]]]]; try contradiction; lia. }
  destruct R as [why R]. rewrite R. simpl.
  split; [exists why; reflexivity | split; [reflexivity | intros _; reflexivity]].
Qed.

Lemma validatePermitAndTransfer_rejects_locally_witness :
  let o := validatePermitAndTransfer Devnet.chain Devnet.plain
             (Devnet.permit_to Devnet.validator) Devnet.good_signature
             Devnet.alice Devnet.bob 2000000 Devnet.genesis in
  rejected_before_any_call o /\
  calls_of (trace_of o) = [] /\
  (1000000 < 2000000 -> filter is_registry_call (calls_of (trace_of o)) = []).
Proof.
  apply (validatePermitAndTransfer_rejects_locally Devnet.chain Devnet.plain
           (Devnet.permit_to Devnet.validator) Devnet.good_signature
           Devnet.alice Devnet.bob 2000000 Devnet.genesis).
  right; right; right; left. simpl. lia.
Defined.

(** Evaluation: [validatePermit] with a permit whose spender is Bob, not the
    validator, goes to the registry and emits the validation event. *)
Example scenario_validate_foreign_spender :
  validatePermit Devnet.chain Devnet.plain
    (Devnet.permit_to Devnet.bob) Devnet.good_signature Devnet.alice Devnet.genesis
  = Success tt
      {| Devnet.balances := [(Devnet.alice, 5000000)];
         Devnet.allowance := 1000000;
         Devnet.nonce_used := false |}
      [ACall (mkCall PERMIT2 0
                (Msg.permit Devnet.alice (Devnet.permit_to Devnet.bob)
                   Devnet.good_signature));
       AEmit (PermitValidated Devnet.alice Devnet.usdc Devnet.bob 1000000)].
Proof. reflexivity. Qed.




(** ** Atomicity *)

(** Use the recorded handler results to evaluate a replay. *)
Ltac use_results :=
  repeat match goal with
  | H : ?x = _ |- context [?x] => rewrite H; simpl
  end.

(** X15. A frame that returns has made exactly the calls of its trace, each of
    which returned, and its final state is the state they lead to. *)
Lemma success_is_a_complete_run :
  forall (E : Chain) (ctx : Ctx) (e : Entry) (w w' : World E) (tr : list Action),
    dispatch E ctx e w = Success tt w' tr ->
    replay E (this ctx) w tr = Some w'.
Proof.
  intros E ctx e w w' tr.
  destruct e; run_contract; intros H; inversion H; subst; clear H;
    simpl; unfold perform; simpl; use_results; reflexivity.
Qed.

(** A frame that reverts on an external call had run every earlier call of
    its trace to completion. *)
Lemma revert_on_call_follows_completed_calls :
  forall (E : Chain) (ctx : Ctx) (e : Entry) (w : World E) (c : ExtCall)
         (tr : list Action),
    dispatch E ctx e w = Reverted (CallReverted c) tr ->
    exists w1,
      tr = (removelast tr ++ [ACall c])%list /\
      replay E (this ctx) w (removelast tr) = Some w1 /\
      perform E (this ctx) c w1 = None.
Proof.
  intros E ctx e w c tr.
  destruct e; run_contract; intros H; inversion H; subst; clear H;
    eexists; simpl; unfold perform; simpl; use_results;
    (split; [reflexivity | split; [reflexivity | use_results; reflexivity]]).
Qed.

(** Evaluation: a receive-and-bridge whose attached value is below the bridge
    fee.  The registry has moved one million units from Alice to the
    validator when the bridge rejects the send; the transaction leaves the
    genesis state in place. *)
Example scenario_underpaid_bridge :
  let call := Call_receiveAndBridge (Devnet.permit_to Devnet.validator)
                Devnet.good_signature Devnet.alice 1000000 40161 Devnet.bob 990000 [] in
  let o := dispatch Devnet.chain (Devnet.paying 4) call Devnet.genesis in
  (exists c, o = Reverted (CallReverted c) (trace_of o)) /\
  option_map (fun s => Devnet.balance (Devnet.balances s) Devnet.validator)
    (replay Devnet.chain Devnet.validator Devnet.genesis (removelast (trace_of o)))
  = Some 1000000 /\
  post Devnet.chain (transact Devnet.chain (dispatch Devnet.chain (Devnet.paying 4) call)
                       Devnet.genesis)
  = Devnet.genesis.
Proof.
  split; [eexists; reflexivity | split; reflexivity].
Qed.

(** C3. Whatever the entry point and its input, every failure aborts the
    call and an aborted call changes nothing: the transaction succeeds exactly
    when all the local checks pass and every external call the frame makes
    returns; when it succeeds, the state kept is the one reached by all the
    calls of the frame and the logs are all its events (no partial commit);
    when it does not, the state is exactly the state before the call and no log
    is left, also when the calls made before the failing one had already
    changed the state. *)
Theorem aborted_call_restores_state :
  forall (E : Chain) (ctx : Ctx) (e : Entry) (w : World E),
    let o := dispatch E ctx e w in
    let r := transact E (dispatch E ctx e) w in
    (succeeded E r = true <->
     checks_pass E ctx e w = true /\
     exists w', replay E (this ctx) w (trace_of o) = Some w') /\
    (succeeded E r = true ->
     replay E (this ctx) w (trace_of o) = Some (post E r) /\
     logs E r = events_of (trace_of o)) /\
    (succeeded E r = false ->
     post E r = w /\ logs E r = [] /\
     (forall c tr,
         o = Reverted (CallReverted c) tr ->
         exists w1, replay E (this ctx) w (removelast tr) = Some w1 /\
                    perform E (this ctx) c w1 = None)).
Proof.
  intros E ctx e w o r.
  assert (Hcommit :
    (succeeded E r = true <->
     checks_pass E ctx e w = true /\
     exists w', replay E (this ctx) w (trace_of o) = Some w') /\
    (succeeded E r = true ->
     replay E (this ctx) w (trace_of o) = Some (post E r) /\
     logs E r = events_of (trace_of o))).
  { subst o r. unfold transact, checks_pass.
    destruct e; run_contract; simpl; unfold perform; simpl; use_results.
    all: try (split;
              [split; [intros _; split; [reflexivity | eexists; reflexivity]
                      | reflexivity]
              | intros _; split; reflexivity]).
    all: split; [split; [discriminate | intros [H1 [w' H2]]; discriminate]
                | discriminate]. }
  destruct Hcommit as [Hiff Hdone].
  split; [exact Hiff | split; [exact Hdone |]].
  intros Hfail. subst r. unfold transact in *.
  destruct (dispatch E ctx e w) as [a w' tr0 | why tr0] eqn:Ho; simpl in *.
  - discriminate Hfail.
  - split; [reflexivity | split; [reflexivity |]].
    intros c tr Heq. subst o. inversion Heq; subst.
    destruct (revert_on_call_follows_completed_calls E ctx e w c tr Ho)
      as [w1 [_ [H1 H2]]].
    exists w1. split; assumption.
Qed.

Lemma aborted_call_restores_state_witness :
  let call := Call_receiveAndBridge (Devnet.permit_to Devnet.validator)
                Devnet.good_signature Devnet.alice 1000000 40161 Devnet.bob 990000 [] in
  let r := transact Devnet.chain (dispatch Devnet.chain (Devnet.paying 4) call)
             Devnet.genesis in
  post Devnet.chain r = Devnet.genesis /\ logs Devnet.chain r = [] /\
  succeeded Devnet.chain r = false.
Proof.
  intros call r.
  destruct (aborted_call_restores_state Devnet.chain (Devnet.paying 4) call
              Devnet.genesis) as [_ [_ H]].
  destruct (H eq_refl) as [H1 [H2 _]].
  split; [exact H1 | split; [exact H2 | reflexivity]].
Defined.

(** ** The gasless pull *)

(** Evaluation: a gasless bridge of 500,000 units with the fee attached. *)
Example scenario_gasless_bridge :
  receiveAndBridgeGasless Devnet.chain (Devnet.paying 5) (Devnet.oneshot 500000)
    Devnet.alice Devnet.good_signature 40161 Devnet.bob 495000 [] Devnet.genesis
  = Success tt
      {| Devnet.balances :=
           [(0, 500000); (Devnet.validator, 0);
            (Devnet.validator, 500000); (Devnet.alice, 4500000);
            (Devnet.alice, 5000000)];
         Devnet.allowance := 0;
         Devnet.nonce_used := true |}
      [ACall (mkCall PERMIT2_SIGNATURE 0
                (Msg.permitTransferFrom (Devnet.oneshot 500000)
                   {| ISignatureTransfer.to := Devnet.validator;
                      ISignatureTransfer.requestedAmount := 500000 |}
                   Devnet.alice Devnet.good_signature));
       AEmit (TokensTransferred Devnet.alice Devnet.validator Devnet.usdc 500000);
       ACall (mkCall Devnet.usdc 0 (Msg.approve Devnet.usdc 500000));
       ACall (mkCall Devnet.usdc 5
                (Msg.send
                   {| IOFT.dstEid := 40161; IOFT.to := Devnet.bob;
                      IOFT.amountLD := 500000; IOFT.minAmountLD := 495000;
                      IOFT.extraOptions := []; IOFT.composeMsg := [];
                      IOFT.oftCmd := [] |}
                   {| IOFT.nativeFee := 5; IOFT.lzTokenFee := 0 |}
                   Devnet.alice));
       AEmit (TokensBridged Devnet.alice Devnet.usdc 40161 Devnet.bob 500000 77)].
Proof. reflexivity. Qed.

(** Evaluation: a one-shot permit for zero units is turned away by the first
    check, before the registry is called. *)
Example scenario_gasless_zero_amount :
  receiveAndBridgeGasless Devnet.chain (Devnet.paying 5) (Devnet.oneshot 0)
    Devnet.alice Devnet.good_signature 40161 Devnet.bob 0 [] Devnet.genesis
  = Reverted (RequireFailed "Zero amount") [].
Proof. reflexivity. Qed.

(** C4, as stated, fails: a call to [receiveAndBridgeGasless] with a permit
    for zero units makes no call to pull funds at all. *)
Lemma gasless_zero_amount_pulls_nothing :
  ~ pulls_once (this (Devnet.paying 5)) (Devnet.oneshot 0) Devnet.alice
      Devnet.good_signature
      (receiveAndBridgeGasless Devnet.chain (Devnet.paying 5) (Devnet.oneshot 0)
         Devnet.alice Devnet.good_signature 40161 Devnet.bob 0 [] Devnet.genesis).
Proof.
  unfold pulls_once. vm_compute. discriminate.
Qed.

(** C4, amended. A call to [receiveAndBridgeGasless] that passes its three
    local checks (permit amount positive, destination address and token not
    null) makes exactly one registry call, the one-shot signature transfer,
    with the contract as destination and the permit's own amount as requested
    amount, and no allowance-registering call; a call that fails one of the
    checks makes no external call. *)
Theorem gasless_pulls_once_after_local_checks :
  forall (E : Chain) (ctx : Ctx) (permit : ISignatureTransfer.PermitTransferFrom)
         (owner : address) (signature : bytes) (dstEid : uint32)
         (dstAddress : address) (minAmountLD : uint256) (extraOptions : bytes)
         (w : World E),
    let o := receiveAndBridgeGasless E ctx permit owner signature dstEid dstAddress
               minAmountLD extraOptions w in
    (0 < ISignatureTransfer.amount (ISignatureTransfer.permitted permit) ->
     dstAddress <> address0 ->
     ISignatureTransfer.token (ISignatureTransfer.permitted permit) <> address0 ->
     pulls_once (this ctx) permit owner signature o /\
     hd_error (trace_of o)
     = Some (ACall (mkCall PERMIT2_SIGNATURE 0
                      (Msg.permitTransferFrom permit
                         {| ISignatureTransfer.to := this ctx;
                            ISignatureTransfer.requestedAmount :=
                              ISignatureTransfer.amount
                                (ISignatureTransfer.permitted permit) |}
                         owner signature)))) /\
    (~ (0 < ISignatureTransfer.amount (ISignatureTransfer.permitted permit) /\
        dstAddress <> address0 /\
        ISignatureTransfer.token (ISignatureTransfer.permitted permit) <> address0) ->
     rejected_before_any_call o).
Proof.
  intros E ctx permit owner sig dstEid dstAddress minAmountLD opts w o.
  subst o. unfold pulls_once, rejected_before_any_call. split.
  - intros Ha Hd Ht.
    apply Z.ltb_lt in Ha. apply Z.eqb_neq in Hd, Ht.
    unfold_contract; simpl. rewrite Ha, Hd, Ht. simpl.
    repeat split_step; split; reflexivity.
  - intros Hn.
    run_contract; eauto; exfalso; apply Hn; to_prop; unfold address0 in *;
      repeat split; assumption.
Qed.

Lemma gasless_pulls_once_after_local_checks_witness :
  pulls_once Devnet.validator (Devnet.oneshot 500000) Devnet.alice
    Devnet.good_signature
    (receiveAndBridgeGasless Devnet.chain (Devnet.paying 5) (Devnet.oneshot 500000)
       Devnet.alice Devnet.good_signature 40161 Devnet.bob 495000 []
       Devnet.genesis).
Proof.
  apply (gasless_pulls_once_after_local_checks Devnet.chain (Devnet.paying 5)
           (Devnet.oneshot 500000) Devnet.alice Devnet.good_signature 40161
           Devnet.bob 495000 [] Devnet.genesis).
  - simpl. lia.
  - unfold Devnet.bob, address0. lia.
  - simpl. unfold Devnet.usdc, address0. lia.
Defined.

(** ** Order of effects on the bridge paths *)

(** Evaluation: an allowance-style bridge of one million units. *)
Example scenario_allowance_bridge :
  receiveAndBridge Devnet.chain (Devnet.paying 5) (Devnet.permit_to Devnet.validator)
    Devnet.good_signature Devnet.alice 1000000 40161 Devnet.bob 990000 []
    Devnet.genesis
  = Success tt
      {| Devnet.balances :=
           [(0, 1000000); (Devnet.validator, 0);
            (Devnet.validator, 1000000); (Devnet.alice, 4000000);
            (Devnet.alice, 5000000)];
         Devnet.allowance := 0;
         Devnet.nonce_used := false |}
      [ACall (mkCall PERMIT2 0
                (Msg.permit Devnet.alice (Devnet.permit_to Devnet.validator)
                   Devnet.good_signature));
       ACall (mkCall PERMIT2 0
                (Msg.transferFrom Devnet.alice Devnet.validator 1000000 Devnet.usdc));
       AEmit (TokensTransferred Devnet.alice Devnet.validator Devnet.usdc 1000000);
       ACall (mkCall Devnet.usdc 0 (Msg.approve Devnet.usdc 1000000));
       ACall (mkCall Devnet.usdc 5
                (Msg.send
                   {| IOFT.dstEid := 40161; IOFT.to := Devnet.bob;
                      IOFT.amountLD := 1000000; IOFT.minAmountLD := 990000;
                      IOFT.extraOptions := []; IOFT.composeMsg := [];
                      IOFT.oftCmd := [] |}
                   {| IOFT.nativeFee := 5; IOFT.lzTokenFee := 0 |}
                   Devnet.alice));
       AEmit (TokensBridged Devnet.alice Devnet.usdc 40161 Devnet.bob 1000000 77)].
Proof. reflexivity. Qed.

(** C5. In a successful [receiveAndBridge] or [receiveAndBridgeGasless] the
    registry call that moves the funds into the contract has returned before
    the approve call and the bridge send start (they run in the state it
    produced), the transfer-completed event precedes the bridge-initiated
    event, and the latter carries the message identifier the send returned. *)
Theorem funds_received_before_bridge :
  forall (E : Chain) (ctx : Ctx) (owner : address) (signature : bytes)
         (dstEid : uint32) (dstAddress : address) (minAmountLD : uint256)
         (extraOptions : bytes) (w : World E),
    (forall (permitSingle : IAllowanceTransfer.PermitSingle) (amount : uint160)
            (w' : World E) (tr : list Action),
        receiveAndBridge E ctx permitSingle signature owner amount dstEid dstAddress
          minAmountLD extraOptions w = Success tt w' tr ->
        let token := IAllowanceTransfer.token (IAllowanceTransfer.details permitSingle) in
        exists w1 w2 ok w3 sendParam fee receipts,
          PERMIT2_permit E (this ctx) owner permitSingle signature w = Some w1 /\
          PERMIT2_transferFrom E (this ctx) owner (this ctx) amount token w1 = Some w2 /\
          IOFT_approve E (this ctx) token token amount w2 = Some (ok, w3) /\
          IOFT_send E (this ctx) token (value ctx) sendParam fee owner w3
          = Some (receipts, w') /\
          tr = [ACall (mkCall PERMIT2 0 (Msg.permit owner permitSingle signature));
                ACall (mkCall PERMIT2 0
                         (Msg.transferFrom owner (this ctx) amount token));
                AEmit (TokensTransferred owner (this ctx) token amount);
                ACall (mkCall token 0 (Msg.approve token amount));
                ACall (mkCall token (value ctx) (Msg.send sendParam fee owner));
                AEmit (TokensBridged owner token dstEid dstAddress amount
                         (IOFT.guid (fst receipts)))]) /\
    (forall (permit : ISignatureTransfer.PermitTransferFrom)
            (w' : World E) (tr : list Action),
        receiveAndBridgeGasless E ctx permit owner signature dstEid dstAddress
          minAmountLD extraOptions w = Success tt w' tr ->
        let token := ISignatureTransfer.token (ISignatureTransfer.permitted permit) in
        let amount := ISignatureTransfer.amount (ISignatureTransfer.permitted permit) in
        exists w1 ok w2 sendParam fee receipts,
          PERMIT2_permitTransferFrom E (this ctx) permit
            {| ISignatureTransfer.to := this ctx;
               ISignatureTransfer.requestedAmount := amount |}
            owner signature w = Some w1 /\
          IOFT_approve E (this ctx) token token amount w1 = Some (ok, w2) /\
          IOFT_send E (this ctx) token (value ctx) sendParam fee owner w2
          = Some (receipts, w') /\
          tr = [ACall (mkCall PERMIT2_SIGNATURE 0
                         (Msg.permitTransferFrom permit
                            {| ISignatureTransfer.to := this ctx;
                               ISignatureTransfer.requestedAmount := amount |}
                            owner signature));
                AEmit (TokensTransferred owner (this ctx) token (to_uint160 amount));
                ACall (mkCall token 0 (Msg.approve token amount));
                ACall (mkCall token (value ctx) (Msg.send sendParam fee owner));
                AEmit (TokensBridged owner token dstEid dstAddress amount
                         (IOFT.guid (fst receipts)))]).
Proof.
  intros E ctx owner sig dstEid dstAddress minAmountLD opts w.
  split.
  - intros p amount w' tr. run_contract; intros H; inversion H; subst; clear H.
    do 7 eexists.
    repeat (split; [first [eassumption | reflexivity]|]). reflexivity.
  - intros permit w' tr. run_contract; intros H; inversion H; subst; clear H.
    do 6 eexists.
    repeat (split; [first [eassumption | reflexivity]|]). reflexivity.
Qed.

Lemma funds_received_before_bridge_witness :
  exists sendParam fee (receipts : IOFT.MessagingReceipt * IOFT.OFTReceipt),
    trace_of (receiveAndBridgeGasless Devnet.chain (Devnet.paying 5)
                (Devnet.oneshot 500000) Devnet.alice Devnet.good_signature 40161
                Devnet.bob 495000 [] Devnet.genesis)
    = [ACall (mkCall PERMIT2_SIGNATURE 0
                (Msg.permitTransferFrom (Devnet.oneshot 500000)
                   {| ISignatureTransfer.to := Devnet.validator;
                      ISignatureTransfer.requestedAmount := 500000 |}
                   Devnet.alice Devnet.good_signature));
       AEmit (TokensTransferred Devnet.alice Devnet.validator Devnet.usdc
                (to_uint160 500000));
       ACall (mkCall Devnet.usdc 0 (Msg.approve Devnet.usdc 500000));
       ACall (mkCall Devnet.usdc 5 (Msg.send sendParam fee Devnet.alice));
       AEmit (TokensBridged Devnet.alice Devnet.usdc 40161 Devnet.bob 500000
                (IOFT.guid (fst receipts)))].
Proof.
  destruct (funds_received_before_bridge Devnet.chain (Devnet.paying 5)
              Devnet.alice Devnet.good_signature 40161 Devnet.bob 495000 []
              Devnet.genesis) as [_ H].
  destruct (H (Devnet.oneshot 500000) _ _ eq_refl)
    as [w1 [ok [w2 [sp [fee [r [_ [_ [_ H4]]]]]]]]].
  exists sp, fee, r. exact H4.
Defined.

(** ** Amounts on the gasless path *)

(** Evaluation: with a permit for [2^160 + 500000] units the transfer event
    reports 500,000 and the bridge event the full amount. *)
Example scenario_gasless_wide_amount :
  events_of (trace_of
    (receiveAndBridgeGasless Devnet.chain (Devnet.paying 5)
       (Devnet.oneshot (2 ^ 160 + 500000)) Devnet.alice Devnet.good_signature
       40161 Devnet.bob 0 [] Devnet.whale_genesis))
  = [TokensTransferred Devnet.alice Devnet.validator Devnet.usdc 500000;
     TokensBridged Devnet.alice Devnet.usdc 40161 Devnet.bob
       (2 ^ 160 + 500000) 77].
Proof. vm_compute. reflexivity. Qed.

Lemma to_uint160_changes_wide_amounts (x : uint256) :
  2 ^ 160 <= x -> to_uint160 x <> x.
Proof.
  unfold to_uint160. intros Hge Heq.
  assert (Hb : 0 <= x mod 2 ^ 160 < 2 ^ 160) by (apply Z.mod_pos_bound; reflexivity).
  rewrite Heq in Hb. lia.
Qed.

(** C9. In a successful [receiveAndBridgeGasless] the transfer-completed event
    reports the permit amount modulo [2^160] (the 256-bit amount cast to 160
    bits), while the registry transfer, the approve, the bridge send and the
    bridge-initiated event use the full amount; when the amount is at least
    [2^160] the two emitted amounts differ. *)
Theorem gasless_transfer_event_truncates :
  forall (E : Chain) (ctx : Ctx) (permit : ISignatureTransfer.PermitTransferFrom)
         (owner : address) (signature : bytes) (dstEid : uint32)
         (dstAddress : address) (minAmountLD : uint256) (extraOptions : bytes)
         (w w' : World E) (tr : list Action),
    receiveAndBridgeGasless E ctx permit owner signature dstEid dstAddress
      minAmountLD extraOptions w = Success tt w' tr ->
    let token := ISignatureTransfer.token (ISignatureTransfer.permitted permit) in
    let amount := ISignatureTransfer.amount (ISignatureTransfer.permitted permit) in
    exists sendParam fee messageId,
      tr = [ACall (mkCall PERMIT2_SIGNATURE 0
                     (Msg.permitTransferFrom permit
                        {| ISignatureTransfer.to := this ctx;
                           ISignatureTransfer.requestedAmount := amount |}
                        owner signature));
            AEmit (TokensTransferred owner (this ctx) token (amount mod 2 ^ 160));
            ACall (mkCall token 0 (Msg.approve token amount));
            ACall (mkCall token (value ctx) (Msg.send sendParam fee owner));
            AEmit (TokensBridged owner token dstEid dstAddress amount messageId)] /\
      IOFT.amountLD sendParam = amount /\
      (2 ^ 160 <= amount -> amount mod 2 ^ 160 <> amount).
Proof.
  intros E ctx permit owner sig dstEid dstAddress minAmountLD opts w w' tr.
  pose proof (to_uint160_changes_wide_amounts
                (ISignatureTransfer.amount (ISignatureTransfer.permitted permit)))
    as Hwide.
  unfold to_uint160 in Hwide.
  run_contract; intros H; inversion H; subst; clear H.
  do 3 eexists. split; [reflexivity | split; [reflexivity | exact Hwide]].
Qed.

Lemma gasless_transfer_event_truncates_witness :
  (2 ^ 160 + 500000) mod 2 ^ 160 <> 2 ^ 160 + 500000.
Proof.
  destruct (gasless_transfer_event_truncates Devnet.chain (Devnet.paying 5)
              (Devnet.oneshot (2 ^ 160 + 500000)) Devnet.alice
              Devnet.good_signature 40161 Devnet.bob 0 [] Devnet.whale_genesis
              _ _ eq_refl) as [sp [fee [mid [_ [_ H]]]]].
  apply H. simpl. lia.
Defined.

(** ** The fee handed to the bridge *)

(** C10. Every bridge send issued by [receiveAndBridge] and
    [receiveAndBridgeGasless] carries a fee structure whose native fee is the
    whole value attached by the caller, which is also the value of the call,
    whose second fee field is zero, and names the permit owner as refund
    address. *)
Theorem bridge_send_forwards_whole_value :
  forall (E : Chain) (ctx : Ctx) (owner : address) (signature : bytes)
         (dstEid : uint32) (dstAddress : address) (minAmountLD : uint256)
         (extraOptions : bytes) (w : World E)
         (c : ExtCall) (sendParam : IOFT.SendParam) (fee : IOFT.MessagingFee)
         (refundAddress : address),
    calldata c = Msg.send sendParam fee refundAddress ->
    (forall (permitSingle : IAllowanceTransfer.PermitSingle) (amount : uint160),
        In c (calls_of (trace_of
                (receiveAndBridge E ctx permitSingle signature owner amount dstEid
                   dstAddress minAmountLD extraOptions w))) ->
        IOFT.nativeFee fee = value ctx /\ callvalue c = value ctx /\
        IOFT.lzTokenFee fee = 0 /\ refundAddress = owner) /\
    (forall (permit : ISignatureTransfer.PermitTransferFrom),
        In c (calls_of (trace_of
                (receiveAndBridgeGasless E ctx permit owner signature dstEid
                   dstAddress minAmountLD extraOptions w))) ->
        IOFT.nativeFee fee = value ctx /\ callvalue c = value ctx /\
        IOFT.lzTokenFee fee = 0 /\ refundAddress = owner).
Proof.
  intros E ctx owner sig dstEid dstAddress minAmountLD opts w c sp fee refund Hc.
  split; intros *; run_contract; simpl; intros Hin;
    repeat (destruct Hin as [Hin | Hin]); try contradiction;
    subst c; simpl in Hc; try discriminate Hc;
    inversion Hc; subst; simpl; repeat split; reflexivity.
Qed.

Lemma bridge_send_forwards_whole_value_witness :
  let fee := {| IOFT.nativeFee := 5; IOFT.lzTokenFee := 0 |} in
  IOFT.nativeFee fee = value (Devnet.paying 5) /\ 5 = value (Devnet.paying 5) /\
  IOFT.lzTokenFee fee = 0 /\ Devnet.alice = Devnet.alice.
Proof.
  intros fee.
  pose (sp := {| IOFT.dstEid := 40161; IOFT.to := Devnet.bob;
                 IOFT.amountLD := 500000; IOFT.minAmountLD := 495000;
                 IOFT.extraOptions := []; IOFT.composeMsg := [];
                 IOFT.oftCmd := [] |}).
  destruct (bridge_send_forwards_whole_value Devnet.chain (Devnet.paying 5)
              Devnet.alice Devnet.good_signature 40161 Devnet.bob 495000 []
              Devnet.genesis
              (mkCall Devnet.usdc 5 (Msg.send sp fee Devnet.alice))
              sp fee Devnet.alice eq_refl) as [_ H].
  apply (H (Devnet.oneshot 500000)).
  simpl. right. right. left. reflexivity.
Defined.

(** ** Quote *)

(** Evaluation: a quote on the small chain returns the flat fee and leaves
    the state alone. *)
Example scenario_quote :
  quoteBridge Devnet.chain Devnet.plain Devnet.usdc 40161 Devnet.bob 500000 495000 []
    Devnet.genesis
  = Success 5 Devnet.genesis
      [ACall (mkCall Devnet.usdc 0
                (Msg.quoteSend
                   {| IOFT.dstEid := 40161; IOFT.to := Devnet.bob;
                      IOFT.amountLD := 500000; IOFT.minAmountLD := 495000;
                      IOFT.extraOptions := []; IOFT.composeMsg := [];
                      IOFT.oftCmd := [] |}
                   false))].
Proof. reflexivity. Qed.

(** C6. For the same token, destination endpoint, destination address, amount,
    minimum amount and options, [quoteBridge] hands to [quoteSend] the very
    send parameters that the send path hands to [send] (the destination
    widened to 32 bytes, empty compose message and command); it makes that one
    read-only call, changes no state, emits nothing, and returns the native-fee
    field of the fee [quoteSend] answered, reverting only when [quoteSend]
    does. *)
Theorem quoteBridge_prices_the_send :
  forall (E : Chain) (ctx : Ctx) (token : address) (dstEid : uint32)
         (dstAddress : address) (amount minAmountLD : uint256)
         (extraOptions : bytes) (refundAddress : address) (nativeFee : uint256)
         (w : World E),
    value ctx = 0 ->
    exists sendParam,
      sendParam = {| IOFT.dstEid := dstEid;
                     IOFT.to := bytes32_of_uint256
                                  (uint256_of_uint160 (uint160_of_address dstAddress));
                     IOFT.amountLD := amount;
                     IOFT.minAmountLD := minAmountLD;
                     IOFT.extraOptions := extraOptions;
                     IOFT.composeMsg := [];
                     IOFT.oftCmd := [] |} /\
      trace_of (quoteBridge E ctx token dstEid dstAddress amount minAmountLD
                  extraOptions w)
      = [ACall (mkCall token 0 (Msg.quoteSend sendParam false))] /\
      trace_of (_sendViaLayerZero E ctx token dstEid dstAddress amount minAmountLD
                  extraOptions refundAddress nativeFee w)
      = [ACall (mkCall token nativeFee
                  (Msg.send sendParam
                     {| IOFT.nativeFee := nativeFee; IOFT.lzTokenFee := 0 |}
                     refundAddress))] /\
      (forall fee,
          IOFT_quoteSend E token sendParam false w = Some fee ->
          quoteBridge E ctx token dstEid dstAddress amount minAmountLD extraOptions w
          = Success (IOFT.nativeFee fee) w
              [ACall (mkCall token 0 (Msg.quoteSend sendParam false))]) /\
      (IOFT_quoteSend E token sendParam false w = None ->
       quoteBridge E ctx token dstEid dstAddress amount minAmountLD extraOptions w
       = Reverted (CallReverted (mkCall token 0 (Msg.quoteSend sendParam false)))
           [ACall (mkCall token 0 (Msg.quoteSend sendParam false))]) /\
      (forall r w' tr,
          quoteBridge E ctx token dstEid dstAddress amount minAmountLD extraOptions w
          = Success r w' tr ->
          w' = w /\
          events_of tr = [] /\
          exists fee, IOFT_quoteSend E token sendParam false w = Some fee /\
                      r = IOFT.nativeFee fee) /\
      post E (transact E (quoteBridge E ctx token dstEid dstAddress amount
                            minAmountLD extraOptions) w) = w.
Proof.
  intros E ctx token dstEid dstAddress amount minAmountLD opts refund nativeFee w Hv.
  eexists. split; [reflexivity|].
  unfold transact. unfold_contract; simpl. rewrite Hv. simpl.
  destruct (IOFT_quoteSend E token _ false w) as [fee|] eqn:Hq; simpl;
    (split; [reflexivity|]);
    (split; [destruct (IOFT_send E _ _ _ _ _ _ w) as [[]|]; reflexivity|]);
    (split; [intros fee' Hfee; inversion Hfee; subst; reflexivity|]);
    (split; [intros Hnone; first [discriminate Hnone | reflexivity]|]);
    (split; [|reflexivity]);
    intros r w' tr H; inversion H; subst.
  split; [reflexivity | split; [reflexivity | exists fee; split; reflexivity]].
Qed.

Lemma quoteBridge_prices_the_send_witness :
  exists sendParam,
    trace_of (quoteBridge Devnet.chain Devnet.plain Devnet.usdc 40161 Devnet.bob
                500000 495000 [] Devnet.genesis)
    = [ACall (mkCall Devnet.usdc 0 (Msg.quoteSend sendParam false))] /\
    trace_of (_sendViaLayerZero Devnet.chain Devnet.plain Devnet.usdc 40161
                Devnet.bob 500000 495000 [] Devnet.alice 5 Devnet.genesis)
    = [ACall (mkCall Devnet.usdc 5
                (Msg.send sendParam
                   {| IOFT.nativeFee := 5; IOFT.lzTokenFee := 0 |} Devnet.alice))] /\
    quoteBridge Devnet.chain Devnet.plain Devnet.usdc 40161 Devnet.bob
      500000 495000 [] Devnet.genesis
    = Success (IOFT.nativeFee {| IOFT.nativeFee := Devnet.flat_fee;
                                 IOFT.lzTokenFee := 0 |})
        Devnet.genesis
        [ACall (mkCall Devnet.usdc 0 (Msg.quoteSend sendParam false))].
Proof.
  destruct (quoteBridge_prices_the_send Devnet.chain Devnet.plain Devnet.usdc 40161
              Devnet.bob 500000 495000 [] Devnet.alice 5 Devnet.genesis eq_refl)
    as [sp [_ [H1 [H2 [H3 _]]]]].
  exists sp. split; [exact H1 | split; [exact H2 |]].
  apply H3. reflexivity.
Defined.

(** ** Withdraw *)

(** Evaluation: Bob, an outsider, names himself as destination and obtains an
    approval over tokens the validator holds. *)
Example scenario_withdraw_by_outsider :
  let held := {| Devnet.balances := [(Devnet.validator, 700)];
                 Devnet.allowance := 0; Devnet.nonce_used := false |} in
  withdrawTokens Devnet.chain
    {| this := Devnet.validator; sender := Devnet.bob; value := 0 |}
    Devnet.usdc Devnet.bob 700 held
  = Success tt held
      [ACall (mkCall Devnet.usdc 0 (Msg.balanceOf Devnet.validator));
       ACall (mkCall Devnet.usdc 0 (Msg.approve Devnet.bob 700))].
Proof. reflexivity. Qed.

(** C7. [withdrawTokens] succeeds only if the access check (the caller is the
    contract, or the destination is the caller) and the balance check (the
    contract's balance of the token covers the amount) pass; a successful call
    asks the token for the balance, approves the destination for the amount
    and makes no transfer call; and a caller who names itself as destination
    is never turned away by the access check. *)
Theorem withdrawTokens_checks_then_approves :
  forall (E : Chain) (ctx : Ctx) (token to : address) (amount : uint256)
         (w : World E),
    (forall w' tr,
        withdrawTokens E ctx token to amount w = Success tt w' tr ->
        (sender ctx = this ctx \/ to = sender ctx) /\
        (exists balance ok,
            IOFT_balanceOf E token (this ctx) w = Some balance /\
            amount <= balance /\
            IOFT_approve E (this ctx) token to amount w = Some (ok, w')) /\
        tr = [ACall (mkCall token 0 (Msg.balanceOf (this ctx)));
              ACall (mkCall token 0 (Msg.approve to amount))] /\
        filter is_transfer (calls_of tr) = []) /\
    (to = sender ctx ->
     forall tr,
       withdrawTokens E ctx token to amount w
       <> Reverted (RequireFailed "Not authorized") tr).
Proof.
  intros E ctx token to amount w. split.
  - intros w' tr. run_contract; intros H; inversion H; subst; clear H.
    all: to_prop; (split; [auto |]); (split; [| split; reflexivity]).
    all: do 2 eexists; split; [reflexivity | split; [assumption | reflexivity]].
  - intros Hto tr. subst to.
    unfold_contract; simpl. rewrite Z.eqb_refl, orb_true_r. simpl.
    repeat split_step; discriminate.
Qed.

Lemma withdrawTokens_checks_then_approves_witness :
  let bobs := {| this := Devnet.validator; sender := Devnet.bob; value := 0 |} in
  (sender bobs = this bobs \/ Devnet.bob = sender bobs) /\
  forall tr,
    withdrawTokens Devnet.chain bobs Devnet.usdc Devnet.bob 700 Devnet.genesis
    <> Reverted (RequireFailed "Not authorized") tr.
Proof.
  intros bobs.
  pose (held := {| Devnet.balances := [(Devnet.validator, 700)];
                   Devnet.allowance := 0; Devnet.nonce_used := false |}).
  split.
  - destruct (withdrawTokens_checks_then_approves Devnet.chain bobs Devnet.usdc
                Devnet.bob 700 held) as [H _].
    destruct (H _ _ eq_refl) as [Hacc _]. exact Hacc.
  - destruct (withdrawTokens_checks_then_approves Devnet.chain bobs Devnet.usdc
                Devnet.bob 700 Devnet.genesis) as [_ H].
    apply H. reflexivity.
Defined.

(** ** Validate-only *)

(** C8. [validatePermit] moves no funds: it makes no transfer call; when it
    succeeds its one external call is the registry's [permit], the state it
    leaves is the one that call produced, so that whatever the registry's
    [permit] leaves alone (token balances) is unchanged, and the one event is
    the validation event with owner, token, spender and amount; when it
    reverts it has emitted nothing. *)
Theorem validatePermit_moves_no_funds :
  forall (E : Chain) (ctx : Ctx) (permitSingle : IAllowanceTransfer.PermitSingle)
         (signature : bytes) (owner : address) (w : World E),
    let o := validatePermit E ctx permitSingle signature owner w in
    filter is_transfer (calls_of (trace_of o)) = [] /\
    (forall w' tr,
        o = Success tt w' tr ->
        PERMIT2_permit E (this ctx) owner permitSingle signature w = Some w' /\
        tr = [ACall (mkCall PERMIT2 0 (Msg.permit owner permitSingle signature));
              AEmit (PermitValidated owner
                       (IAllowanceTransfer.token (IAllowanceTransfer.details permitSingle))
                       (IAllowanceTransfer.spender permitSingle)
                       (IAllowanceTransfer.amount
                          (IAllowanceTransfer.details permitSingle)))]) /\
    (forall why tr, o = Reverted why tr -> events_of tr = []) /\
    (forall (X : Type) (balances : World E -> X),
        (forall caller owner' permit' signature' w1 w2,
            PERMIT2_permit E caller owner' permit' signature' w1 = Some w2 ->
            balances w2 = balances w1) ->
        forall w' tr, o = Success tt w' tr -> balances w' = balances w).
Proof.
  intros E ctx p sig owner w o. subst o.
  split; [| split; [| split]].
  - run_contract; reflexivity.
  - intros w' tr.
    run_contract; intros H; inversion H; subst; split; reflexivity.
  - intros why tr.
    run_contract; intros H; inversion H; subst; reflexivity.
  - intros X balances Hframe w' tr.
    run_contract; intros H; inversion H; subst.
    eapply Hframe; eassumption.
Qed.

Lemma validatePermit_moves_no_funds_witness :
  Devnet.balances
    {| Devnet.balances := [(Devnet.alice, 5000000)];
       Devnet.allowance := 1000000;
       Devnet.nonce_used := false |}
  = Devnet.balances Devnet.genesis.
Proof.
  destruct (validatePermit_moves_no_funds Devnet.chain Devnet.plain
              (Devnet.permit_to Devnet.validator) Devnet.good_signature
              Devnet.alice Devnet.genesis) as [_ [_ [_ H]]].
  apply (H _ Devnet.balances) with (tr := trace_of
           (validatePermit Devnet.chain Devnet.plain
              (Devnet.permit_to Devnet.validator) Devnet.good_signature
              Devnet.alice Devnet.genesis)).
  - intros caller owner' permit' signature' w1 w2. simpl.
    unfold Devnet.permit. destruct (Devnet.is_good signature'); intros Hp.
    + inversion Hp. reflexivity.
    + discriminate Hp.
  - reflexivity.
Defined.

(** * Further properties of the contract *)

(** ** When a call reaches the registry *)

(** X1. [validatePermitAndTransfer] stops before any external call exactly
    when value is attached or one of its six checks fails; in every other case
    the registry is called: the first action of the frame is the registry's
    [permit] for the given owner, permit and signature. *)
Theorem validatePermitAndTransfer_local_rejection_iff :
  forall (E : Chain) (ctx : Ctx) (permitSingle : IAllowanceTransfer.PermitSingle)
         (signature : bytes) (owner recipient : address) (amount : uint160)
         (w : World E),
    let o := validatePermitAndTransfer E ctx permitSingle signature owner recipient
               amount w in
    let failing :=
      value ctx <> 0 \/
      recipient = address0 \/
      recipient = this ctx \/
      amount <= 0 \/
      IAllowanceTransfer.amount (IAllowanceTransfer.details permitSingle) < amount \/
      IAllowanceTransfer.token (IAllowanceTransfer.details permitSingle) = address0 \/
      IAllowanceTransfer.spender permitSingle <> this ctx in
    (rejected_before_any_call o <-> failing) /\
    (~ failing ->
     hd_error (trace_of o)
     = Some (ACall (mkCall PERMIT2 0 (Msg.permit owner permitSingle signature)))).
Proof.
  intros E ctx p sig owner recipient amount w o failing. subst o failing.
  unfold rejected_before_any_call. split; [split |].
  - intros [why H]. revert H.
    run_contract; intros H; try discriminate H; to_prop; unfold address0 in *; lia.
  - intros H.
    run_contract; eauto; exfalso; to_prop; unfold address0 in *; lia.
  - intros H.
    run_contract; try reflexivity; exfalso; apply H; to_prop;
      unfold address0 in *; lia.
Qed.

Lemma validatePermitAndTransfer_local_rejection_iff_witness :
  hd_error (trace_of
    (validatePermitAndTransfer Devnet.chain Devnet.plain
       (Devnet.permit_to Devnet.validator) Devnet.good_signature Devnet.alice
       Devnet.bob 1000000 Devnet.genesis))
  = Some (ACall (mkCall PERMIT2 0
                   (Msg.permit Devnet.alice (Devnet.permit_to Devnet.validator)
                      Devnet.good_signature))).
Proof.
  apply (validatePermitAndTransfer_local_rejection_iff Devnet.chain Devnet.plain
           (Devnet.permit_to Devnet.validator) Devnet.good_signature Devnet.alice
           Devnet.bob 1000000 Devnet.genesis).
  simpl. unfold Devnet.bob, Devnet.validator, address0, Devnet.usdc. lia.
Defined.

(** X2. [receiveTokensWithPermit] stops before any external call exactly when
    value is attached or one of its four checks fails. *)
Theorem receiveTokensWithPermit_local_rejection_iff :
  forall (E : Chain) (ctx : Ctx) (permitSingle : IAllowanceTransfer.PermitSingle)
         (signature : bytes) (owner : address) (amount : uint160) (w : World E),
    rejected_before_any_call
      (receiveTokensWithPermit E ctx permitSingle signature owner amount w)
    <->
    (value ctx <> 0 \/
     amount <= 0 \/
     IAllowanceTransfer.amount (IAllowanceTransfer.details permitSingle) < amount \/
     IAllowanceTransfer.token (IAllowanceTransfer.details permitSingle) = address0 \/
     IAllowanceTransfer.spender permitSingle <> this ctx).
Proof.
  intros E ctx p sig owner amount w.
  unfold rejected_before_any_call. split.
  - intros [why H]. revert H.
    run_contract; intros H; try discriminate H; to_prop; unfold address0 in *; lia.
  - intros H.
    run_contract; eauto; exfalso; to_prop; unfold address0 in *; lia.
Qed.

(** X3. [receiveAndBridge] stops before any external call exactly when one of
    its five checks fails; attached value is accepted. *)
Theorem receiveAndBridge_local_rejection_iff :
  forall (E : Chain) (ctx : Ctx) (permitSingle : IAllowanceTransfer.PermitSingle)
         (signature : bytes) (owner : address) (amount : uint160) (dstEid : uint32)
         (dstAddress : address) (minAmountLD : uint256) (extraOptions : bytes)
         (w : World E),
    rejected_before_any_call
      (receiveAndBridge E ctx permitSingle signature owner amount dstEid dstAddress
         minAmountLD extraOptions w)
    <->
    (amount <= 0 \/
     dstAddress = address0 \/
     IAllowanceTransfer.amount (IAllowanceTransfer.details permitSingle) < amount \/
     IAllowanceTransfer.token (IAllowanceTransfer.details permitSingle) = address0 \/
     IAllowanceTransfer.spender permitSingle <> this ctx).
Proof.
  intros E ctx p sig owner amount dstEid dstAddress minAmountLD opts w.
  unfold rejected_before_any_call. split.
  - intros [why H]. revert H.
    run_contract; intros H; try discriminate H; to_prop; unfold address0 in *; lia.
  - intros H.
    run_contract; eauto; exfalso; to_prop; unfold address0 in *; lia.
Qed.

(** X4. The revert reason of [validatePermitAndTransfer] is that of the first
    check, in source order, that fails: recipient null, recipient the contract,
    amount zero, amount above the bound, token null, foreign spender. *)
Theorem validatePermitAndTransfer_reports_first_failing_check :
  forall (E : Chain) (ctx : Ctx) (permitSingle : IAllowanceTransfer.PermitSingle)
         (signature : bytes) (owner recipient : address) (amount : uint160)
         (w : World E),
    value ctx = 0 ->
    let bound := IAllowanceTransfer.amount (IAllowanceTransfer.details permitSingle) in
    let token := IAllowanceTransfer.token (IAllowanceTransfer.details permitSingle) in
    let o := validatePermitAndTransfer E ctx permitSingle signature owner recipient
               amount w in
    (recipient = address0 ->
     o = Reverted (RequireFailed "Invalid recipient") []) /\
    (recipient <> address0 -> recipient = this ctx ->
     o = Reverted (RequireFailed "Cannot transfer to self") []) /\
    (recipient <> address0 -> recipient <> this ctx -> amount <= 0 ->
     o = Reverted (RequireFailed "Zero amount") []) /\
    (recipient <> address0 -> recipient <> this ctx -> 0 < amount ->
     bound < amount ->
     o = Reverted (RequireFailed "Amount exceeds permitted") []) /\
    (recipient <> address0 -> recipient <> this ctx -> 0 < amount ->
     amount <= bound -> token = address0 ->
     o = Reverted (RequireFailed "Invalid token") []) /\
    (recipient <> address0 -> recipient <> this ctx -> 0 < amount ->
     amount <= bound -> token <> address0 ->
     IAllowanceTransfer.spender permitSingle <> this ctx ->
     o = Reverted (RequireFailed "Invalid spender") []).
Proof.
  intros E ctx p sig owner recipient amount w Hv bound token o.
  subst bound token o.
  repeat split; intros;
    run_contract; try reflexivity; exfalso; to_prop; unfold address0 in *; lia.
Qed.

Lemma validatePermitAndTransfer_reports_first_failing_check_witness :
  validatePermitAndTransfer Devnet.chain Devnet.plain (Devnet.permit_to Devnet.bob)
    Devnet.good_signature Devnet.alice Devnet.validator 0 Devnet.genesis
  = Reverted (RequireFailed "Cannot transfer to self") [].
Proof.
  destruct (validatePermitAndTransfer_reports_first_failing_check Devnet.chain
              Devnet.plain (Devnet.permit_to Devnet.bob) Devnet.good_signature
              Devnet.alice Devnet.validator 0 Devnet.genesis eq_refl)
    as [_ [H _]].
  apply H.
  - unfold Devnet.validator, address0. lia.
  - reflexivity.
Defined.

(** ** What the contract asks the registry to move *)

(** X5. Whenever one of the three allowance entry points issues the registry's
    [transferFrom], also in a run that later reverts, it moves the permit's
    token (not null) from the owner, a positive amount within the permit's
    bound, under a permit whose spender is the contract; the destination is
    the given recipient, neither null nor the contract, for
    [validatePermitAndTransfer] and the contract itself for the other two. *)
Theorem transferFrom_stays_within_permit :
  forall (E : Chain) (ctx : Ctx) (permitSingle : IAllowanceTransfer.PermitSingle)
         (signature : bytes) (owner : address) (amount : uint160) (w : World E)
         (c : ExtCall) (from to : address) (moved : uint160) (token : address),
    calldata c = Msg.transferFrom from to moved token ->
    let within :=
      target c = PERMIT2 /\ callvalue c = 0 /\
      from = owner /\ moved = amount /\ 0 < moved /\
      moved <= IAllowanceTransfer.amount (IAllowanceTransfer.details permitSingle) /\
      token = IAllowanceTransfer.token (IAllowanceTransfer.details permitSingle) /\
      token <> address0 /\
      IAllowanceTransfer.spender permitSingle = this ctx in
    (forall recipient,
        In c (calls_of (trace_of
                (validatePermitAndTransfer E ctx permitSingle signature owner
                   recipient amount w))) ->
        within /\ to = recipient /\ to <> address0 /\ to <> this ctx) /\
    (In c (calls_of (trace_of
             (receiveTokensWithPermit E ctx permitSingle signature owner amount w))) ->
     within /\ to = this ctx) /\
    (forall dstEid dstAddress minAmountLD extraOptions,
        In c (calls_of (trace_of
                (receiveAndBridge E ctx permitSingle signature owner amount dstEid
                   dstAddress minAmountLD extraOptions w))) ->
        within /\ to = this ctx).
Proof.
  intros E ctx p sig owner amount w c from to moved token Hc within.
  subst within.
  split; [| split]; intros *; run_contract; simpl; intros Hin;
    repeat (destruct Hin as [Hin | Hin]); try contradiction;
    subst c; simpl in Hc; try discriminate Hc;
    inversion Hc; subst; simpl; to_prop; unfold address0 in *;
    repeat split; try reflexivity; try assumption; try lia.
Qed.

Lemma transferFrom_stays_within_permit_witness :
  Devnet.alice = Devnet.alice /\ 1000000 <= 1000000 /\ Devnet.validator = Devnet.validator.
Proof.
  destruct (transferFrom_stays_within_permit Devnet.chain (Devnet.paying 4)
              (Devnet.permit_to Devnet.validator) Devnet.good_signature
              Devnet.alice 1000000 Devnet.genesis
              (mkCall PERMIT2 0
                 (Msg.transferFrom Devnet.alice Devnet.validator 1000000 Devnet.usdc))
              Devnet.alice Devnet.validator 1000000 Devnet.usdc eq_refl)
    as [_ [_ H]].
  destruct (H 40161 Devnet.bob 990000 []) as [[_ [_ [Hf [_ [_ [Hb _]]]]]] Ht].
  - simpl. right. left. reflexivity.
  - split; [exact Hf | split; [exact Hb | exact Ht]].
Defined.

(** ** Whom the contract calls *)

(** X6. Whatever the entry point, the input and the outcome, every external
    call of the contract goes either to the registry at its fixed address or
    to the token of the call; value is attached to no call but the bridge
    send, which carries exactly the value of the transaction. *)
Theorem calls_go_to_registry_or_token :
  forall (E : Chain) (ctx : Ctx) (e : Entry) (w : World E) (c : ExtCall),
    In c (calls_of (trace_of (dispatch E ctx e w))) ->
    (if is_registry_call c then target c = PERMIT2 else target c = entry_token e) /\
    callvalue c = (if is_send c then value ctx else 0).
Proof.
  intros E ctx e w c.
  destruct (is_registry_call c) eqn:Hr; destruct (is_send c) eqn:Hs;
    destruct e; run_contract; simpl; intros Hin;
    repeat (destruct Hin as [Hin | Hin]); try contradiction;
    subst c; try discriminate Hr; try discriminate Hs; split; reflexivity.
Qed.

Lemma calls_go_to_registry_or_token_witness :
  let c := mkCall Devnet.usdc 5
             (Msg.send
                {| IOFT.dstEid := 40161; IOFT.to := Devnet.bob;
                   IOFT.amountLD := 500000; IOFT.minAmountLD := 495000;
                   IOFT.extraOptions := []; IOFT.composeMsg := [];
                   IOFT.oftCmd := [] |}
                {| IOFT.nativeFee := 5; IOFT.lzTokenFee := 0 |} Devnet.alice) in
  target c = Devnet.usdc /\ callvalue c = value (Devnet.paying 5).
Proof.
  intros c.
  apply (calls_go_to_registry_or_token Devnet.chain (Devnet.paying 5)
           (Call_receiveAndBridgeGasless (Devnet.oneshot 500000) Devnet.alice
              Devnet.good_signature 40161 Devnet.bob 495000 [])
           Devnet.genesis c).
  simpl. right. right. left. reflexivity.
Defined.

(** ** What the contract asks the bridge to send *)

(** X7. Every bridge send issued by [receiveAndBridge] or
    [receiveAndBridgeGasless] is addressed to the token of the permit and asks
    for the amount pulled from the owner (the requested amount, respectively
    the permit's amount), with the caller's endpoint, minimum amount and
    options, the destination address as a 32-byte word, which is never null,
    and empty compose message and command. *)
Theorem bridge_send_carries_the_pulled_amount :
  forall (E : Chain) (ctx : Ctx) (owner : address) (signature : bytes)
         (dstEid : uint32) (dstAddress : address) (minAmountLD : uint256)
         (extraOptions : bytes) (w : World E)
         (c : ExtCall) (sendParam : IOFT.SendParam) (fee : IOFT.MessagingFee)
         (refundAddress : address),
    calldata c = Msg.send sendParam fee refundAddress ->
    let shape (token : address) (amount : uint256) :=
      target c = token /\
      sendParam = {| IOFT.dstEid := dstEid;
                     IOFT.to := dstAddress;
                     IOFT.amountLD := amount;
                     IOFT.minAmountLD := minAmountLD;
                     IOFT.extraOptions := extraOptions;
                     IOFT.composeMsg := [];
                     IOFT.oftCmd := [] |} /\
      IOFT.to sendParam <> 0 /\ 0 < IOFT.amountLD sendParam in
    (forall (permitSingle : IAllowanceTransfer.PermitSingle) (amount : uint160),
        In c (calls_of (trace_of
                (receiveAndBridge E ctx permitSingle signature owner amount dstEid
                   dstAddress minAmountLD extraOptions w))) ->
        shape (IAllowanceTransfer.token (IAllowanceTransfer.details permitSingle))
              amount) /\
    (forall (permit : ISignatureTransfer.PermitTransferFrom),
        In c (calls_of (trace_of
                (receiveAndBridgeGasless E ctx permit owner signature dstEid
                   dstAddress minAmountLD extraOptions w))) ->
        shape (ISignatureTransfer.token (ISignatureTransfer.permitted permit))
              (ISignatureTransfer.amount (ISignatureTransfer.permitted permit))).
Proof.
  intros E ctx owner sig dstEid dstAddress minAmountLD opts w c sp fee refund Hc shape.
  subst shape.
  split; intros *; run_contract; simpl; intros Hin;
    repeat (destruct Hin as [Hin | Hin]); try contradiction;
    subst c; simpl in Hc; try discriminate Hc;
    inversion Hc; subst; simpl; to_prop; unfold address0 in *;
    repeat split; try reflexivity; try assumption; try lia.
Qed.

Lemma bridge_send_carries_the_pulled_amount_witness :
  Devnet.usdc = Devnet.usdc /\ Devnet.bob <> 0 /\ 0 < 500000.
Proof.
  pose (sp := {| IOFT.dstEid := 40161; IOFT.to := Devnet.bob;
                 IOFT.amountLD := 500000; IOFT.minAmountLD := 495000;
                 IOFT.extraOptions := []; IOFT.composeMsg := [];
                 IOFT.oftCmd := [] |}).
  pose (fee := {| IOFT.nativeFee := 5; IOFT.lzTokenFee := 0 |}).
  destruct (bridge_send_carries_the_pulled_amount Devnet.chain (Devnet.paying 5)
              Devnet.alice Devnet.good_signature 40161 Devnet.bob 495000 []
              Devnet.genesis
              (mkCall Devnet.usdc 5 (Msg.send sp fee Devnet.alice))
              sp fee Devnet.alice eq_refl) as [_ H].
  destruct (H (Devnet.oneshot 500000)) as [Ht [_ [Hto Ha]]].
  - simpl. right. right. left. reflexivity.
  - split; [exact Ht | split; [exact Hto | exact Ha]].
Defined.

(** ** When the bridge paths succeed *)

(** X8. If the five checks of [receiveAndBridge] pass and the registry's
    [permit] and [transferFrom], the token's [approve] and the bridge's [send]
    all return, the call succeeds in the state [send] left and emits the two
    events, whatever boolean [approve] returned: a [false] answer does not stop
    the bridge send. *)
Theorem receiveAndBridge_succeeds_whatever_approve_returns :
  forall (E : Chain) (ctx : Ctx) (permitSingle : IAllowanceTransfer.PermitSingle)
         (signature : bytes) (owner : address) (amount : uint160) (dstEid : uint32)
         (dstAddress : address) (minAmountLD : uint256) (extraOptions : bytes)
         (w w1 w2 w3 w4 : World E) (ok : bool)
         (receipts : IOFT.MessagingReceipt * IOFT.OFTReceipt),
    let token := IAllowanceTransfer.token (IAllowanceTransfer.details permitSingle) in
    0 < amount ->
    dstAddress <> address0 ->
    amount <= IAllowanceTransfer.amount (IAllowanceTransfer.details permitSingle) ->
    token <> address0 ->
    IAllowanceTransfer.spender permitSingle = this ctx ->
    PERMIT2_permit E (this ctx) owner permitSingle signature w = Some w1 ->
    PERMIT2_transferFrom E (this ctx) owner (this ctx) amount token w1 = Some w2 ->
    IOFT_approve E (this ctx) token token amount w2 = Some (ok, w3) ->
    IOFT_send E (this ctx) token (value ctx)
      {| IOFT.dstEid := dstEid; IOFT.to := dstAddress; IOFT.amountLD := amount;
         IOFT.minAmountLD := minAmountLD; IOFT.extraOptions := extraOptions;
         IOFT.composeMsg := []; IOFT.oftCmd := [] |}
      {| IOFT.nativeFee := value ctx; IOFT.lzTokenFee := 0 |} owner w3
    = Some (receipts, w4) ->
    exists tr,
      receiveAndBridge E ctx permitSingle signature owner amount dstEid dstAddress
        minAmountLD extraOptions w = Success tt w4 tr /\
      events_of tr
      = [TokensTransferred owner (this ctx) token amount;
         TokensBridged owner token dstEid dstAddress amount (IOFT.guid (fst receipts))].
Proof.
  intros E ctx p sig owner amount dstEid dstAddress minAmountLD opts
         w w1 w2 w3 w4 ok receipts token Ha Hd Hb Ht Hs H1 H2 H3 H4.
  subst token.
  apply Z.ltb_lt in Ha. apply Z.leb_le in Hb. apply Z.eqb_neq in Hd, Ht.
  apply Z.eqb_eq in Hs.
  unfold_contract; simpl.
  unfold uint256_of_uint160, bytes32_of_uint256, uint160_of_address.
  rewrite Ha, Hd, Hb, Ht, Hs; simpl.
  rewrite H1; simpl. rewrite H2; simpl. rewrite H3; simpl. rewrite H4; simpl.
  eexists. split; reflexivity.
Qed.

Lemma receiveAndBridge_succeeds_whatever_approve_returns_witness :
  exists w' tr,
    receiveAndBridge refusing_chain (Devnet.paying 5)
      (Devnet.permit_to Devnet.validator) Devnet.good_signature Devnet.alice
      1000000 40161 Devnet.bob 990000 [] Devnet.genesis
    = Success tt w' tr /\
    events_of tr
    = [TokensTransferred Devnet.alice Devnet.validator Devnet.usdc 1000000;
       TokensBridged Devnet.alice Devnet.usdc 40161 Devnet.bob 1000000 77].
Proof.
  eexists.
  eapply (receiveAndBridge_succeeds_whatever_approve_returns refusing_chain
            (Devnet.paying 5) (Devnet.permit_to Devnet.validator)
            Devnet.good_signature Devnet.alice 1000000 40161 Devnet.bob 990000 []
            Devnet.genesis _ _ _ _ false
            ({| IOFT.guid := 77; IOFT.nonce := 1;
                IOFT.fee := {| IOFT.nativeFee := 5; IOFT.lzTokenFee := 0 |} |},
             {| IOFT.amountSentLD := 1000000; IOFT.amountReceivedLD := 1000000 |})).
  - lia.
  - unfold Devnet.bob, address0. lia.
  - simpl. lia.
  - simpl. unfold Devnet.usdc, address0. lia.
  - reflexivity.
  - reflexivity.
  - reflexivity.
  - reflexivity.
  - reflexivity.
Defined.

(** ** The two transfer entry points *)

(** X9. [validatePermitAndTransfer] succeeds exactly when no value is attached,
    its six checks pass and the registry's [permit] and then [transferFrom]
    (owner to recipient, the requested amount, the permit's token) return; it
    then leaves the state [transferFrom] produced and its trace is those two
    calls followed by the one transfer event. *)
Theorem validatePermitAndTransfer_success_iff :
  forall (E : Chain) (ctx : Ctx) (permitSingle : IAllowanceTransfer.PermitSingle)
         (signature : bytes) (owner recipient : address) (amount : uint160)
         (w w' : World E) (tr : list Action),
    let token := IAllowanceTransfer.token (IAllowanceTransfer.details permitSingle) in
    validatePermitAndTransfer E ctx permitSingle signature owner recipient amount w
    = Success tt w' tr
    <->
    (value ctx = 0 /\
     recipient <> address0 /\ recipient <> this ctx /\
     0 < amount /\
     amount <= IAllowanceTransfer.amount (IAllowanceTransfer.details permitSingle) /\
     token <> address0 /\
     IAllowanceTransfer.spender permitSingle = this ctx /\
     (exists w1,
         PERMIT2_permit E (this ctx) owner permitSingle signature w = Some w1 /\
         PERMIT2_transferFrom E (this ctx) owner recipient amount token w1 = Some w') /\
     tr = [ACall (mkCall PERMIT2 0 (Msg.permit owner permitSingle signature));
           ACall (mkCall PERMIT2 0 (Msg.transferFrom owner recipient amount token));
           AEmit (TokensTransferred owner recipient token amount)]).
Proof.
  intros E ctx p sig owner recipient amount w w' tr token. subst token. split.
  - run_contract; intros H; inversion H; subst; clear H.
    to_prop. unfold address0 in *.
    repeat (split; [assumption || lia |]).
    split; [eexists; split; [reflexivity | assumption] | reflexivity].
  - intros [Hv [Hr [Hr' [Ha [Hb [Ht [Hs [[w1 [H1 H2]] Htr]]]]]]]].
    apply Z.eqb_eq in Hv, Hs. apply Z.eqb_neq in Hr, Hr', Ht.
    apply Z.ltb_lt in Ha. apply Z.leb_le in Hb.
    unfold_contract; simpl.
    rewrite Hv, Hr, Hr', Ha, Hb, Ht, Hs; simpl.
    rewrite H1; simpl. rewrite H2; simpl. subst tr. reflexivity.
Qed.

(** X10. [receiveTokensWithPermit] succeeds exactly when no value is attached,
    its four checks pass and the registry's [permit] and then [transferFrom]
    towards the contract itself return; the trace is those two calls followed
    by the transfer event naming the contract as receiver. *)
Theorem receiveTokensWithPermit_success_iff :
  forall (E : Chain) (ctx : Ctx) (permitSingle : IAllowanceTransfer.PermitSingle)
         (signature : bytes) (owner : address) (amount : uint160)
         (w w' : World E) (tr : list Action),
    let token := IAllowanceTransfer.token (IAllowanceTransfer.details permitSingle) in
    receiveTokensWithPermit E ctx permitSingle signature owner amount w
    = Success tt w' tr
    <->
    (value ctx = 0 /\
     0 < amount /\
     amount <= IAllowanceTransfer.amount (IAllowanceTransfer.details permitSingle) /\
     token <> address0 /\
     IAllowanceTransfer.spender permitSingle = this ctx /\
     (exists w1,
         PERMIT2_permit E (this ctx) owner permitSingle signature w = Some w1 /\
         PERMIT2_transferFrom E (this ctx) owner (this ctx) amount token w1 = Some w') /\
     tr = [ACall (mkCall PERMIT2 0 (Msg.permit owner permitSingle signature));
           ACall (mkCall PERMIT2 0 (Msg.transferFrom owner (this ctx) amount token));
           AEmit (TokensTransferred owner (this ctx) token amount)]).
Proof.
  intros E ctx p sig owner amount w w' tr token. subst token. split.
  - run_contract; intros H; inversion H; subst; clear H.
    to_prop. unfold address0 in *.
    repeat (split; [assumption || lia |]).
    split; [eexists; split; [reflexivity | assumption] | reflexivity].
  - intros [Hv [Ha [Hb [Ht [Hs [[w1 [H1 H2]] Htr]]]]]].
    apply Z.eqb_eq in Hv, Hs. apply Z.eqb_neq in Ht.
    apply Z.ltb_lt in Ha. apply Z.leb_le in Hb.
    unfold_contract; simpl.
    rewrite Hv, Ha, Hb, Ht, Hs; simpl.
    rewrite H1; simpl. rewrite H2; simpl. subst tr. reflexivity.
Qed.

(** ** How the entry points compose *)

(** X11. With a destination address that is not null, [receiveAndBridge] is
    [receiveTokensWithPermit] (run without value) followed by the approve of
    the token for the amount, the bridge send paid with the attached value and
    the bridge event: same checks failing with the same reasons, same registry
    calls, same first event. *)
Theorem receiveAndBridge_is_receive_then_bridge :
  forall (E : Chain) (ctx : Ctx) (permitSingle : IAllowanceTransfer.PermitSingle)
         (signature : bytes) (owner : address) (amount : uint160) (dstEid : uint32)
         (dstAddress : address) (minAmountLD : uint256) (extraOptions : bytes)
         (w : World E),
    dstAddress <> address0 ->
    let token := IAllowanceTransfer.token (IAllowanceTransfer.details permitSingle) in
    receiveAndBridge E ctx permitSingle signature owner amount dstEid dstAddress
      minAmountLD extraOptions w
    = bind E
        (receiveTokensWithPermit E (without_value ctx) permitSingle signature owner
           amount)
        (fun _ =>
           bind E (oft_approve E ctx token token amount)
             (fun _ =>
                bind E
                  (_sendViaLayerZero E ctx token dstEid dstAddress amount
                     minAmountLD extraOptions owner (value ctx))
                  (fun guid =>
                     emit E (TokensBridged owner token dstEid dstAddress amount guid))))
        w.
Proof.
  intros E ctx p sig owner amount dstEid dstAddress minAmountLD opts w Hd token.
  subst token. apply Z.eqb_neq in Hd.
  unfold without_value. unfold_contract.
  unfold uint256_of_uint160, bytes32_of_uint256, uint160_of_address.
  simpl. rewrite Hd; simpl.
  repeat split_step; reflexivity.
Qed.

Lemma receiveAndBridge_is_receive_then_bridge_witness :
  receiveAndBridge Devnet.chain (Devnet.paying 5) (Devnet.permit_to Devnet.validator)
    Devnet.good_signature Devnet.alice 1000000 40161 Devnet.bob 990000 []
    Devnet.genesis
  = bind Devnet.chain
      (receiveTokensWithPermit Devnet.chain (without_value (Devnet.paying 5))
         (Devnet.permit_to Devnet.validator) Devnet.good_signature Devnet.alice
         1000000)
      (fun _ =>
         bind Devnet.chain
           (oft_approve Devnet.chain (Devnet.paying 5) Devnet.usdc Devnet.usdc 1000000)
           (fun _ =>
              bind Devnet.chain
                (_sendViaLayerZero Devnet.chain (Devnet.paying 5) Devnet.usdc 40161
                   Devnet.bob 1000000 990000 [] Devnet.alice 5)
                (fun guid =>
                   emit Devnet.chain
                     (TokensBridged Devnet.alice Devnet.usdc 40161 Devnet.bob
                        1000000 guid))))
      Devnet.genesis.
Proof.
  apply (receiveAndBridge_is_receive_then_bridge Devnet.chain (Devnet.paying 5)
           (Devnet.permit_to Devnet.validator) Devnet.good_signature Devnet.alice
           1000000 40161 Devnet.bob 990000 [] Devnet.genesis).
  unfold Devnet.bob, address0. lia.
Defined.

(** ** Amounts below 160 bits on the gasless path *)

(** X12. In a successful [receiveAndBridgeGasless] whose permit amount is below
    [2^160] the two events report the same amount, the permit's. *)
Theorem gasless_events_agree_below_160_bits :
  forall (E : Chain) (ctx : Ctx) (permit : ISignatureTransfer.PermitTransferFrom)
         (owner : address) (signature : bytes) (dstEid : uint32)
         (dstAddress : address) (minAmountLD : uint256) (extraOptions : bytes)
         (w w' : World E) (tr : list Action),
    receiveAndBridgeGasless E ctx permit owner signature dstEid dstAddress
      minAmountLD extraOptions w = Success tt w' tr ->
    let token := ISignatureTransfer.token (ISignatureTransfer.permitted permit) in
    let amount := ISignatureTransfer.amount (ISignatureTransfer.permitted permit) in
    amount < 2 ^ 160 ->
    exists messageId,
      events_of tr
      = [TokensTransferred owner (this ctx) token amount;
         TokensBridged owner token dstEid dstAddress amount messageId].
Proof.
  intros E ctx permit owner sig dstEid dstAddress minAmountLD opts w w' tr.
  assert (Hsmall : forall x, 0 < x -> x < 2 ^ 160 -> to_uint160 x = x).
  { intros x H0 H1. unfold to_uint160. apply Z.mod_small. lia. }
  run_contract; intros H; inversion H; subst; clear H.
  intros Hlt. to_prop. eexists. rewrite Hsmall by assumption. reflexivity.
Qed.

Lemma gasless_events_agree_below_160_bits_witness :
  exists messageId,
    events_of (trace_of
      (receiveAndBridgeGasless Devnet.chain (Devnet.paying 5) (Devnet.oneshot 500000)
         Devnet.alice Devnet.good_signature 40161 Devnet.bob 495000 []
         Devnet.genesis))
    = [TokensTransferred Devnet.alice Devnet.validator Devnet.usdc 500000;
       TokensBridged Devnet.alice Devnet.usdc 40161 Devnet.bob 500000 messageId].
Proof.
  apply (gasless_events_agree_below_160_bits Devnet.chain (Devnet.paying 5)
           (Devnet.oneshot 500000) Devnet.alice Devnet.good_signature 40161
           Devnet.bob 495000 [] Devnet.genesis _ _ eq_refl).
  simpl. lia.
Defined.

(** ** How a withdrawal fails *)

(** X13. Called without value, [withdrawTokens] turns away a caller that is
    neither the contract nor the destination before any external call; an
    authorised caller asking for more than the balance the token reports is
    turned away after that one read, and a revert of the balance read is
    passed on; in none of the three cases is [approve] called. *)
Theorem withdrawTokens_failure_modes :
  forall (E : Chain) (ctx : Ctx) (token to : address) (amount : uint256)
         (w : World E),
    value ctx = 0 ->
    let o := withdrawTokens E ctx token to amount w in
    let read := mkCall token 0 (Msg.balanceOf (this ctx)) in
    (sender ctx <> this ctx -> to <> sender ctx ->
     o = Reverted (RequireFailed "Not authorized") []) /\
    (sender ctx = this ctx \/ to = sender ctx ->
     forall balance,
       IOFT_balanceOf E token (this ctx) w = Some balance ->
       balance < amount ->
       o = Reverted (RequireFailed "Insufficient balance") [ACall read]) /\
    (sender ctx = this ctx \/ to = sender ctx ->
     IOFT_balanceOf E token (this ctx) w = None ->
     o = Reverted (CallReverted read) [ACall read]).
Proof.
  intros E ctx token to amount w Hv o read. subst o read.
  apply Z.eqb_eq in Hv.
  split; [| split].
  - intros H1 H2. apply Z.eqb_neq in H1, H2.
    unfold_contract; simpl. rewrite Hv, H1, H2. reflexivity.
  - intros Hauth balance Hb Hlt.
    assert (Ha : (sender ctx =? this ctx) || (to =? sender ctx) = true).
    { apply orb_true_iff. destruct Hauth as [Hauth | Hauth];
        [left | right]; apply Z.eqb_eq; exact Hauth. }
    apply Z.leb_gt in Hlt.
    unfold_contract; simpl. rewrite Hv, Ha; simpl. rewrite Hb; simpl.
    rewrite Hlt. reflexivity.
  - intros Hauth Hb.
    assert (Ha : (sender ctx =? this ctx) || (to =? sender ctx) = true).
    { apply orb_true_iff. destruct Hauth as [Hauth | Hauth];
        [left | right]; apply Z.eqb_eq; exact Hauth. }
    unfold_contract; simpl. rewrite Hv, Ha; simpl. rewrite Hb; simpl.
    reflexivity.
Qed.

Lemma withdrawTokens_failure_modes_witness :
  withdrawTokens Devnet.chain Devnet.plain Devnet.usdc Devnet.bob 700 Devnet.genesis
  = Reverted (RequireFailed "Not authorized") [] /\
  withdrawTokens Devnet.chain Devnet.plain Devnet.usdc Devnet.relayer 700 Devnet.genesis
  = Reverted (RequireFailed "Insufficient balance")
      [ACall (mkCall Devnet.usdc 0 (Msg.balanceOf Devnet.validator))].
Proof.
  split.
  - destruct (withdrawTokens_failure_modes Devnet.chain Devnet.plain Devnet.usdc
                Devnet.bob 700 Devnet.genesis eq_refl) as [H _].
    apply H; simpl; unfold Devnet.relayer, Devnet.validator, Devnet.bob; lia.
  - destruct (withdrawTokens_failure_modes Devnet.chain Devnet.plain Devnet.usdc
                Devnet.relayer 700 Devnet.genesis eq_refl) as [_ [H _]].
    apply (H (or_intror eq_refl) 0); [reflexivity | lia].
Defined.

(** ** Who may call *)

(** X14. No entry point other than [withdrawTokens] looks at the caller: with
    the same contract address and attached value, the outcome of a call is the
    same whoever sends it. *)
Theorem outcome_does_not_depend_on_caller :
  forall (E : Chain) (ctx ctx' : Ctx) (e : Entry) (w : World E),
    this ctx = this ctx' ->
    value ctx = value ctx' ->
    is_withdraw e = false ->
    dispatch E ctx e w = dispatch E ctx' e w.
Proof.
  intros E [t s v] [t' s' v'] e w Ht Hv He. simpl in Ht, Hv. subst t' v'.
  destruct e; try discriminate He; reflexivity.
Qed.

Lemma outcome_does_not_depend_on_caller_witness :
  let call := Call_receiveAndBridgeGasless (Devnet.oneshot 500000) Devnet.alice
                Devnet.good_signature 40161 Devnet.bob 495000 [] in
  dispatch Devnet.chain (Devnet.paying 5) call Devnet.genesis
  = dispatch Devnet.chain
      {| this := Devnet.validator; sender := Devnet.bob; value := 5 |}
      call Devnet.genesis.
Proof.
  intros call.
  apply (outcome_does_not_depend_on_caller Devnet.chain (Devnet.paying 5)
           {| this := Devnet.validator; sender := Devnet.bob; value := 5 |}
           call Devnet.genesis); reflexivity.
Defined.

(** ** The state after a call *)

Lemma success_is_a_complete_run_witness :
  replay Devnet.chain Devnet.validator Devnet.genesis
    [ACall (mkCall PERMIT2_SIGNATURE 0
              (Msg.permitTransferFrom (Devnet.oneshot 500000)
                 {| ISignatureTransfer.to := Devnet.validator;
                    ISignatureTransfer.requestedAmount := 500000 |}
                 Devnet.alice Devnet.good_signature));
     AEmit (TokensTransferred Devnet.alice Devnet.validator Devnet.usdc 500000);
     ACall (mkCall Devnet.usdc 0 (Msg.approve Devnet.usdc 500000));
     ACall (mkCall Devnet.usdc 5
              (Msg.send
                 {| IOFT.dstEid := 40161; IOFT.to := Devnet.bob;
                    IOFT.amountLD := 500000; IOFT.minAmountLD := 495000;
                    IOFT.extraOptions := []; IOFT.composeMsg := [];
                    IOFT.oftCmd := [] |}
                 {| IOFT.nativeFee := 5; IOFT.lzTokenFee := 0 |}
                 Devnet.alice));
     AEmit (TokensBridged Devnet.alice Devnet.usdc 40161 Devnet.bob 500000 77)]
  = Some {| Devnet.balances :=
              [(0, 500000); (Devnet.validator, 0);
               (Devnet.validator, 500000); (Devnet.alice, 4500000);
               (Devnet.alice, 5000000)];
            Devnet.allowance := 0;
            Devnet.nonce_used := true |}.
Proof.
  apply (success_is_a_complete_run Devnet.chain (Devnet.paying 5)
           (Call_receiveAndBridgeGasless (Devnet.oneshot 500000) Devnet.alice
              Devnet.good_signature 40161 Devnet.bob 495000 [])
           Devnet.genesis).
  reflexivity.
Defined.

(** * The relayer script's nonce search *)

Lemma land_with_bit_is_zero (b i : Z) :
  0 <= i -> (Z.land b (Z.shiftl 1 i) =? 0) = negb (Z.testbit b i).
Proof.
  intros Hi. rewrite Z.shiftl_1_l.
  destruct (Z.testbit b i) eqn:Hb; simpl.
  - apply Z.eqb_neq. intros H0.
    assert (H : Z.testbit (Z.land b (2 ^ i)) i = true).
    { rewrite Z.land_spec, Hb, Z.pow2_bits_true by assumption. reflexivity. }
    rewrite H0, Z.bits_0 in H. discriminate H.
  - apply Z.eqb_eq. apply Z.bits_inj'. intros n Hn.
    rewrite Z.land_spec, Z.bits_0, Z.pow2_bits_eqb by assumption.
    destruct (Z.eqb_spec i n) as [->|_].
    + rewrite Hb. reflexivity.
    + apply andb_false_r.
Qed.

(** The loop from index [i] either stops at the first clear bit of the range
    or, when the range has none, ends with the initial value 0. *)
Lemma scan_finds_first_clear_bit (b : Z) :
  forall (n : nat) (i : Z),
    0 <= i ->
    (exists k,
        i <= k < i + Z.of_nat n /\
        Z.testbit b k = false /\
        (forall j, i <= j < k -> Z.testbit b j = true) /\
        BridgeScript.scan n i b 0 0 = k) \/
    ((forall j, i <= j < i + Z.of_nat n -> Z.testbit b j = true) /\
     BridgeScript.scan n i b 0 0 = 0).
Proof.
  induction n as [|n IH]; intros i Hi.
  - right. split; [intros j Hj; lia | reflexivity].
  - cbn [BridgeScript.scan]. rewrite land_with_bit_is_zero by assumption.
    destruct (Z.testbit b i) eqn:Hb; simpl.
    + destruct (IH (i + 1) ltac:(lia)) as [[k [Hk [Hc [Hl Hr]]]] | [Hall Hr]].
      * left. exists k. repeat split; try lia; try assumption.
        intros j Hj. destruct (Z.eq_dec j i) as [->|Hne]; [exact Hb|].
        apply Hl. lia.
      * right. split; [|exact Hr].
        intros j Hj. destruct (Z.eq_dec j i) as [->|Hne]; [exact Hb|].
        apply Hall. lia.
    + left. exists i. repeat split; try lia; try assumption.
Qed.

(** X16. When word 0 of the nonce bitmap has a clear bit among its 256
    positions, the script's search returns the position of the lowest one: a
    nonce below 256 that is unused, every smaller nonce being used. *)
Theorem first_unused_nonce_is_lowest_free :
  forall (nonceBitmap : Z),
    (exists i, 0 <= i < 256 /\ Z.testbit nonceBitmap i = false) ->
    let nonce := BridgeScript.first_unused_nonce nonceBitmap in
    0 <= nonce < 256 /\
    Z.testbit nonceBitmap nonce = false /\
    (forall j, 0 <= j < nonce -> Z.testbit nonceBitmap j = true).
Proof.
  intros b [i [Hi Hc]] nonce. subst nonce.
  unfold BridgeScript.first_unused_nonce.
  destruct (scan_finds_first_clear_bit b 256 0 ltac:(lia))
    as [[k [Hk [Hkc [Hl Hr]]]] | [Hall _]].
  - rewrite Hr. change (Z.of_nat 256) with 256 in Hk.
    split; [lia | split; [exact Hkc | exact Hl]].
  - change (Z.of_nat 256) with 256 in Hall.
    rewrite (Hall i) in Hc by lia. discriminate Hc.
Qed.

Lemma first_unused_nonce_is_lowest_free_witness :
  0 <= BridgeScript.first_unused_nonce 11 < 256 /\
  Z.testbit 11 (BridgeScript.first_unused_nonce 11) = false /\
  (forall j, 0 <= j < BridgeScript.first_unused_nonce 11 -> Z.testbit 11 j = true).
Proof.
  apply (first_unused_nonce_is_lowest_free 11).
  exists 2. split; [lia | reflexivity].
Defined.

(** X17. When all 256 bits of word 0 are set, the loop ends without a [break]
    and the script goes on with nonce 0, a nonce that is already used. *)
Theorem first_unused_nonce_of_full_word :
  forall (nonceBitmap : Z),
    (forall j, 0 <= j < 256 -> Z.testbit nonceBitmap j = true) ->
    BridgeScript.first_unused_nonce nonceBitmap = 0 /\
    Z.testbit nonceBitmap (BridgeScript.first_unused_nonce nonceBitmap) = true.
Proof.
  intros b Hall.
  unfold BridgeScript.first_unused_nonce.
  destruct (scan_finds_first_clear_bit b 256 0 ltac:(lia))
    as [[k [Hk [Hkc _]]] | [_ Hr]].
  - change (Z.of_nat 256) with 256 in Hk.
    rewrite (Hall k) in Hkc by lia. discriminate Hkc.
  - rewrite Hr. split; [reflexivity | apply Hall; lia].
Qed.

Lemma first_unused_nonce_of_full_word_witness :
  BridgeScript.first_unused_nonce (Z.ones 256) = 0 /\
  Z.testbit (Z.ones 256) (BridgeScript.first_unused_nonce (Z.ones 256)) = true.
Proof.
  apply (first_unused_nonce_of_full_word (Z.ones 256)).
  intros j Hj. apply Z.ones_spec_low. lia.
Defined.

(** * Quote, then bridge *)




(** * Success of the gasless bridge and of a withdrawal *)

(** X19. [receiveAndBridgeGasless] succeeds exactly when its three checks pass
    and the registry's one-shot transfer to the contract, the token's
    [approve] of itself for the permit's amount and the bridge's [send], paid
    with the attached value and refundable to the owner, return one after the
    other; the final state is the one [send] left. *)
Theorem receiveAndBridgeGasless_success_iff :
  forall (E : Chain) (ctx : Ctx) (permit : ISignatureTransfer.PermitTransferFrom)
         (owner : address) (signature : bytes) (dstEid : uint32)
         (dstAddress : address) (minAmountLD : uint256) (extraOptions : bytes)
         (w w' : World E),
    let token := ISignatureTransfer.token (ISignatureTransfer.permitted permit) in
    let amount := ISignatureTransfer.amount (ISignatureTransfer.permitted permit) in
    (exists tr,
        receiveAndBridgeGasless E ctx permit owner signature dstEid dstAddress
          minAmountLD extraOptions w = Success tt w' tr)
    <->
    (0 < amount /\ dstAddress <> address0 /\ token <> address0 /\
     exists w1 ok w2 receipts,
       PERMIT2_permitTransferFrom E (this ctx) permit
         {| ISignatureTransfer.to := this ctx;
            ISignatureTransfer.requestedAmount := amount |}
         owner signature w = Some w1 /\
       IOFT_approve E (this ctx) token token amount w1 = Some (ok, w2) /\
       IOFT_send E (this ctx) token (value ctx)
         {| IOFT.dstEid := dstEid; IOFT.to := dstAddress; IOFT.amountLD := amount;
            IOFT.minAmountLD := minAmountLD; IOFT.extraOptions := extraOptions;
            IOFT.composeMsg := []; IOFT.oftCmd := [] |}
         {| IOFT.nativeFee := value ctx; IOFT.lzTokenFee := 0 |} owner w2
       = Some (receipts, w')).
Proof.
  intros E ctx permit owner sig dstEid dstAddress minAmountLD opts w w' token amount.
  subst token amount. split.
  - intros [tr H]. revert H.
    unfold_contract. unfold uint256_of_uint160, bytes32_of_uint256, uint160_of_address.
    simpl. repeat split_step; intros H; inversion H; subst; clear H.
    to_prop. unfold address0 in *.
    repeat (split; [assumption || lia |]).
    do 4 eexists.
    split; [| split]; first [reflexivity | eassumption].
  - intros [Ha [Hd [Ht [w1 [ok [w2 [r [H1 [H2 H3]]]]]]]]].
    apply Z.ltb_lt in Ha. apply Z.eqb_neq in Hd, Ht.
    unfold_contract. unfold uint256_of_uint160, bytes32_of_uint256, uint160_of_address.
    simpl. rewrite Ha, Hd, Ht; simpl.
    rewrite H1; simpl. rewrite H2; simpl. rewrite H3; simpl.
    eexists. reflexivity.
Qed.

(** X20. [withdrawTokens] succeeds exactly when no value is attached, the
    caller is the contract or the destination, the token reports a balance of
    the contract that covers the amount and [approve] returns; the boolean
    [approve] returns is not looked at, and the state left is the one [approve]
    produced. *)
Theorem withdrawTokens_success_iff :
  forall (E : Chain) (ctx : Ctx) (token to : address) (amount : uint256)
         (w w' : World E),
    (exists tr, withdrawTokens E ctx token to amount w = Success tt w' tr)
    <->
    (value ctx = 0 /\
     (sender ctx = this ctx \/ to = sender ctx) /\
     exists balance ok,
       IOFT_balanceOf E token (this ctx) w = Some balance /\
       amount <= balance /\
       IOFT_approve E (this ctx) token to amount w = Some (ok, w')).
Proof.
  intros E ctx token to amount w w'. split.
  - intros [tr H]. revert H.
    run_contract; intros H; inversion H; subst; clear H.
    all: to_prop; (split; [assumption |]); (split; [auto |]).
    all: do 2 eexists; split; [| split];
      first [reflexivity | eassumption].
  - intros [Hv [Hauth [balance [ok [Hb [Hle Happ]]]]]].
    assert (Ha : (sender ctx =? this ctx) || (to =? sender ctx) = true).
    { apply orb_true_iff. destruct Hauth as [Hauth | Hauth];
        [left | right]; apply Z.eqb_eq; exact Hauth. }
    apply Z.eqb_eq in Hv. apply Z.leb_le in Hle.
    unfold_contract; simpl. rewrite Hv, Ha; simpl. rewrite Hb; simpl.
    rewrite Hle; simpl. rewrite Happ; simpl. eexists. reflexivity.
Qed.

(** * The logs of a transaction *)

(** X21. A transaction on any entry point leaves either no log at all, when
    it fails, or the fixed number of events of that entry point: one for the
    validate and the two transfer entry points, two for the two bridge entry
    points, none for a quote or a withdrawal. *)
Theorem logs_are_all_or_nothing :
  forall (E : Chain) (ctx : Ctx) (e : Entry) (w : World E),
    let r := transact E (dispatch E ctx e) w in
    List.length (logs E r) = (if succeeded E r then events_per_call e else 0)%nat.
Proof.
  intros E ctx e w r. subst r. unfold transact.
  destruct (dispatch E ctx e w) as [a w' tr | why tr] eqn:H; simpl; [| reflexivity].
  revert H.
  destruct e; run_contract; intros H; inversion H; subst; reflexivity.
Qed.
